(** * textual-datepicker: the DateSelect control, its dialog and its modal screen

    A shallow embedding of [textual_datepicker/_date_select.py].

    The three classes of the file are modelled as records, their methods as
    functions in a small state-and-exception monad over a [World] that holds
    the application size, the store of [DatePickerDialog] objects (shared by
    reference between a [DateSelect] and its [DatePickerDialogScreen]) and the
    chronological log of calls made into the Textual framework. *)

From Stdlib Require Import ZArith List Ascii String Bool Lia.
Import ListNotations.

Open Scope Z_scope.

(** ** Python values *)

Module Py.

(** A Python [str] is a sequence of Unicode code points. *)
Definition str := list N.

Definition space : N := 32%N.

(** [len(s)], of a string or of any other sequence. *)
Definition len {A} (s : list A) : Z := Z.of_nat (List.length s).

(** [s[0:stop]]: a negative [stop] counts from the end, and both ends are
    clipped to the string. *)
Definition slice_to (s : str) (stop : Z) : str :=
  let stop := if stop <? 0 then Z.max (len s + stop) 0 else Z.min stop (len s) in
  firstn (Z.to_nat stop) s.

(** [f"{s:{n}}"] for a string [s] and an integer [n].  The nested field
    renders [n] in decimal and the result is the format specification.
    - [n < 0]: the specification starts with a sign, which the string
      formatter refuses with [ValueError] ([None] here);
    - [n = 0]: the specification is ["0"], the zero-fill flag without a
      width, so nothing is padded (CPython 3.10 and later);
    - [n > 0]: a width, with the string default of left alignment and
      space fill. *)
Definition format_width (s : str) (n : Z) : option str :=
  if n <? 0 then None
  else if n =? 0 then Some s
  else Some (s ++ repeat space (Z.to_nat n - List.length s)%nat).

(** Conversion of an ASCII literal, for examples. *)
Fixpoint of_string (s : string) : str :=
  match s with
  | EmptyString => []
  | String c r => Ascii.N_of_ascii c :: of_string r
  end.

End Py.

(** [pendulum.DateTime]: the code of this file reads its [day] attribute and
    passes it to [format]; a value is always truthy. *)
Record DateTime := mkDateTime {
  year : Z;
  month : Z;
  day : Z
}.

(** ** The Textual side *)

(** Identity of a widget object. *)
Definition WidgetId := nat.

(** Address of a [DatePickerDialog] object in the store. *)
Definition loc := nat.

(** Modelled from the spec: [DayLabel] and [DatePicker] are defined in the
    package's [__init__] module, which is not part of this file.  The spec
    only says that day numbers are compared for the initial focus, so a node
    of the DOM below a dialog carries its identity, the CSS type names and
    classes the selectors test, the [:focus-within] pseudo class and, for a
    day label, its [day] attribute. *)
Record DomNode := mkDomNode {
  node_id : WidgetId;
  node_types : list string;
  node_classes : list string;
  node_focus_within : bool;
  node_day : Z
}.

(** Modelled from the spec: the [DatePicker] object a dialog embeds; this
    file writes its [target] and [date] attributes. *)
Record DatePicker := mkDatePicker {
  picker_date : option DateTime;
  picker_target : option WidgetId
}.

(** [DatePicker.Selected]: the message carries the chosen date. *)
Record Selected := mkSelected {
  selected_date : option DateTime
}.

(** [events.Key] and [events.MouseEvent], with the attributes read here. *)
Record Key := mkKey { key : string }.

Record MouseEvent := mkMouseEvent {
  screen_x : Z;
  screen_y : Z
}.

(** The selectors used by the file: an optional type name ([None] is [*]),
    an optional class and the [:focus-within] pseudo class. *)
Record Selector := mkSelector {
  sel_type : option string;
  sel_class : option string;
  sel_focus_within : bool
}.

Definition mem_string (s : string) (l : list string) : bool :=
  existsb (String.eqb s) l.

Definition matches (sel : Selector) (n : DomNode) : bool :=
  match sel_type sel with
  | None => true
  | Some t => mem_string t (node_types n)
  end
  && match sel_class sel with
     | None => true
     | Some c => mem_string c (node_classes n)
     end
  && (if sel_focus_within sel then node_focus_within n else true).

(** ["DayLabel.--day"], ["DayLabel.--today"] and ["*:focus-within"]. *)
Definition DayLabel_day : Selector :=
  mkSelector (Some "DayLabel"%string) (Some "--day"%string) false.
Definition DayLabel_today : Selector :=
  mkSelector (Some "DayLabel"%string) (Some "--today"%string) false.
Definition any_focus_within : Selector :=
  mkSelector None None true.

(** ** The classes of the file, as data *)

(** [DatePickerDialog].  [display] and [offset] are the widget attributes the
    file assigns, [target] and [date_picker] its class attributes (both
    [None] until set), and [dom] the descendants of the dialog in query
    order. *)
Record DatePickerDialog := mkDatePickerDialog {
  dialog_display : bool;
  dialog_offset : Z * Z;
  dialog_target : option WidgetId;
  dialog_date_picker : option DatePicker;
  dialog_dom : list DomNode
}.

(** The class attribute [size = Size(30, 17)], which shadows the widget's
    size for every instance. *)
Definition dialog_size : Z * Z := (30, 17).

(** [DateSelect].  [select_widget] is the identity of the object,
    [select_content_width] is [self.content_size.width]. *)
Record DateSelect := mkDateSelect {
  select_widget : WidgetId;
  select_date : option DateTime;
  select_format : Py.str;
  select_placeholder : Py.str;
  select_name : option string;
  select_id : option string;
  select_classes : option string;
  select_dialog : option loc;
  select_content_width : Z
}.

(** [DatePickerDialogScreen]. *)
Record DatePickerDialogScreen := mkDatePickerDialogScreen {
  screen_date : option DateTime;
  screen_dialog : loc
}.

(** What [compose] yields. *)
Inductive Composed :=
| Vertical (children : list DatePicker)
| DialogWidget (d : loc).

(** Calls into the framework, as they are logged.  [PostMessage] is how a
    Textual widget raises an event of its own. *)
Inductive Call :=
| PopScreen
| PushScreen (name : string)
| InstallScreen (screen : DatePickerDialogScreen) (name : string)
| Focus (w : WidgetId)
| PostMessage (sender : WidgetId) (message : Selected).

Inductive Exn :=
| NoMatches
| AttributeError
| ScreenError.

Record World := mkWorld {
  app_size : Z * Z;
  dialogs : loc -> DatePickerDialog;
  next_loc : loc;
  calls : list Call
}.

(** ** The monad *)

Inductive Outcome (A : Type) :=
| Ret (a : A) (w : World)
| Raise (e : Exn) (w : World).

Arguments Ret {A} a w.
Arguments Raise {A} e w.

Definition M (A : Type) := World -> Outcome A.

Definition ret {A} (a : A) : M A := fun w => Ret a w.

Definition raise {A} (e : Exn) : M A := fun w => Raise e w.

Definition bind {A B} (m : M A) (k : A -> M B) : M B :=
  fun w =>
    match m w with
    | Ret a w' => k a w'
    | Raise e w' => Raise e w'
    end.

(** [try: m except e: h]; any other exception passes through. *)
Definition try_except {A} (m : M A) (e : Exn) (h : M A) : M A :=
  fun w =>
    match m w with
    | Ret a w' => Ret a w'
    | Raise e' w' =>
        match e, e' with
        | NoMatches, NoMatches => h w'
        | AttributeError, AttributeError => h w'
        | ScreenError, ScreenError => h w'
        | _, _ => Raise e' w'
        end
    end.

Notation "x <- m ;; k" := (bind m (fun x => k))
  (at level 61, m at next level, right associativity).
Notation "m ;;; k" := (bind m (fun _ => k))
  (at level 61, right associativity).

(** The world an outcome leaves behind, raised or not. *)
Definition world_of {A} (o : Outcome A) : World :=
  match o with
  | Ret _ w => w
  | Raise _ w => w
  end.

Definition raised {A} (o : Outcome A) : option Exn :=
  match o with
  | Ret _ _ => None
  | Raise e _ => Some e
  end.

(** *** Primitive operations *)

Definition get_app_size : M (Z * Z) := fun w => Ret (app_size w) w.

Definition get_dialog (d : loc) : M DatePickerDialog :=
  fun w => Ret (dialogs w d) w.

(** The world after the dialog at [d] has been replaced by [f] of itself. *)
Definition updated (d : loc) (f : DatePickerDialog -> DatePickerDialog)
           (w : World) : World :=
  mkWorld (app_size w)
          (fun l => if Nat.eqb l d then f (dialogs w l) else dialogs w l)
          (next_loc w) (calls w).

(** The world after the framework calls [cs] have been logged. *)
Definition logged (cs : list Call) (w : World) : World :=
  mkWorld (app_size w) (dialogs w) (next_loc w) (calls w ++ cs).

Definition update_dialog (d : loc) (f : DatePickerDialog -> DatePickerDialog) : M unit :=
  fun w => Ret tt (updated d f w).

Definition call (c : Call) : M unit :=
  fun w => Ret tt (logged [c] w).

Definition set_display (b : bool) (d : DatePickerDialog) : DatePickerDialog :=
  mkDatePickerDialog b (dialog_offset d) (dialog_target d)
                     (dialog_date_picker d) (dialog_dom d).

Definition set_offset (o : Z * Z) (d : DatePickerDialog) : DatePickerDialog :=
  mkDatePickerDialog (dialog_display d) o (dialog_target d)
                     (dialog_date_picker d) (dialog_dom d).

Definition set_target (t : option WidgetId) (d : DatePickerDialog) : DatePickerDialog :=
  mkDatePickerDialog (dialog_display d) (dialog_offset d) t
                     (dialog_date_picker d) (dialog_dom d).

Definition set_date_picker (p : option DatePicker) (d : DatePickerDialog) : DatePickerDialog :=
  mkDatePickerDialog (dialog_display d) (dialog_offset d) (dialog_target d)
                     p (dialog_dom d).

Definition set_dom (n : list DomNode) (d : DatePickerDialog) : DatePickerDialog :=
  mkDatePickerDialog (dialog_display d) (dialog_offset d) (dialog_target d)
                     (dialog_date_picker d) n.

(** [widget.query(selector)]: the matching descendants, in DOM order. *)
Definition query (d : loc) (sel : Selector) : M (list DomNode) :=
  fun w => Ret (filter (matches sel) (dialog_dom (dialogs w d))) w.

(** [DOMQuery.first()] raises [NoMatches] on an empty result. *)
Definition first (q : list DomNode) : M DomNode :=
  match q with
  | n :: _ => ret n
  | [] => raise NoMatches
  end.

(** [widget.query_one(selector)]: the first match in DOM order, [NoMatches]
    without one. *)
Definition query_one (d : loc) (sel : Selector) : M DomNode :=
  q <- query d sel ;; first q.

(** [widget.focus()]. *)
Definition focus (w : WidgetId) : M unit := call (Focus w).

(** [self.app.pop_screen()] and [self.app.push_screen(name)]. *)
Definition pop_screen : M unit := call PopScreen.
Definition push_screen (name : string) : M unit := call (PushScreen name).

(** The screens installed so far are those of the [install_screen] calls
    that went through, which are the ones the log holds. *)
Definition is_install (name : string) (c : Call) : bool :=
  match c with
  | InstallScreen _ n => String.eqb n name
  | _ => false
  end.

Definition installed (name : string) (w : World) : bool :=
  existsb (is_install name) (calls w).

(** [self.app.install_screen(screen, name=name)] raises [ScreenError] when
    a screen is already installed under [name]. *)
Definition install_screen (s : DatePickerDialogScreen) (name : string) : M unit :=
  fun w =>
    if installed name w
    then Raise ScreenError w
    else call (InstallScreen s name) w.

(** ** The methods *)

(** The name under which the modal screen is installed and pushed. *)
Definition screen_name : string := "date_picker_dialog_screen"%string.

Section Methods.

(** [pendulum.DateTime.format], of the external date library. *)
Variable pendulum_format : DateTime -> Py.str -> Py.str.

(** The object [DatePicker()] returns, and what the picker does to the
    DOM below the dialog when its reactive [date] is assigned: both belong
    to the [DatePicker] class, defined outside this file. *)
Variable new_DatePicker : DatePicker.
Variable watch_date : option DateTime -> list DomNode -> list DomNode.

(** *** DatePickerDialog *)

(** [DatePickerDialog()]: a new object with the class attributes
    [date_picker = None] and [target = None], displayed, not yet composed. *)
Definition DatePickerDialog_init : M loc :=
  fun w =>
    let d := next_loc w in
    Ret d (mkWorld (app_size w)
                   (fun l => if Nat.eqb l d
                             then mkDatePickerDialog true (0, 0) None None []
                             else dialogs w l)
                   (S d)
                   (calls w)).

Definition DatePickerDialog_compose (self : loc) : M (list Composed) :=
  d <- get_dialog self ;;
  let picker := mkDatePicker (picker_date new_DatePicker) (dialog_target d) in
  update_dialog self (set_date_picker (Some picker)) ;;;
  ret [Vertical [picker]].

Definition DatePickerDialog_on_descendant_blur (self : loc) : M unit :=
  q <- query self any_focus_within ;;
  if Py.len q =? 0
  then update_dialog self (set_display false)
  else ret tt.

Definition DatePickerDialog_on_date_picker_selected
           (self : loc) (event : Selected) : M unit :=
  update_dialog self (set_display false) ;;;
  pop_screen ;;;
  d <- get_dialog self ;;
  match dialog_target d with
  | Some t => focus t
  | None => ret tt
  end.

(** [DatePickerDialogScreen.__init__]: [self.date = None] and
    [self.dialog = date_picker_dialog]. *)
Definition DatePickerDialogScreen_init (date_picker_dialog : loc)
  : DatePickerDialogScreen :=
  mkDatePickerDialogScreen None date_picker_dialog.

(** *** DateSelect *)

Definition set_select_date (d : option DateTime) (s : DateSelect) : DateSelect :=
  mkDateSelect (select_widget s) d (select_format s) (select_placeholder s)
               (select_name s) (select_id s) (select_classes s)
               (select_dialog s) (select_content_width s).

Definition set_select_dialog (d : option loc) (s : DateSelect) : DateSelect :=
  mkDateSelect (select_widget s) (select_date s) (select_format s)
               (select_placeholder s) (select_name s) (select_id s)
               (select_classes s) d (select_content_width s).

(** [DateSelect.__init__]; [widget] is the identity of the new object.  The
    reactive [date] starts at its default [None], and a widget has no
    content width before it is laid out. *)
Definition DateSelect_init (widget : WidgetId)
           (date : option DateTime) (format placeholder : Py.str)
           (name id classes : option string) : DateSelect :=
  let self := mkDateSelect widget None format placeholder name id classes None 0 in
  match date with
  | Some d => set_select_date (Some d) self
  | None => self
  end.

Definition DateSelect_value (self : DateSelect) : option DateTime :=
  select_date self.

Definition chevron : Py.str := [9660%N].

(** [render] cannot raise unless the format specification is refused:
    [None] stands for that [ValueError]. *)
Definition DateSelect_render (self : DateSelect) : option Py.str :=
  let width := select_content_width self in
  let text_space := width - 2 in
  let text_space := if text_space <? 0 then 0 else text_space in
  let text :=
    match select_date self with
    | None => select_placeholder self
    | Some d => pendulum_format d (select_format self)
    end in
  let text :=
    if Py.len text >? text_space then Py.slice_to text text_space else text in
  match Py.format_width text text_space with
  | Some padded => Some (padded ++ [Py.space] ++ chevron)
  | None => None
  end.

Definition DateSelect_on_mount (self : DateSelect) : M DateSelect :=
  d <- match select_dialog self with
       | None =>
           d <- DatePickerDialog_init ;;
           update_dialog d (set_target (Some (select_widget self))) ;;;
           ret d
       | Some d => ret d
       end ;;
  install_screen (DatePickerDialogScreen_init d) screen_name ;;;
  ret (set_select_dialog (Some d) self).

(** [self.dialog.display = True] on a [dialog] that is still [None] is an
    [AttributeError]. *)
Definition DateSelect_show_date_picker (self : DateSelect) : M unit :=
  match select_dialog self with
  | None => raise AttributeError
  | Some d =>
      update_dialog d (set_display true) ;;;
      push_screen screen_name
  end.

Definition DateSelect_on_key (self : DateSelect) (event : Key) : M unit :=
  if String.eqb (key event) "enter"
  then DateSelect_show_date_picker self
  else ret tt.

Definition DateSelect_on_click (self : DateSelect) (event : MouseEvent) : M unit :=
  DateSelect_show_date_picker self.

Definition DateSelect_on_blur (self : DateSelect) : M unit := ret tt.

Definition DateSelect_on_date_picker_selected
           (self : DateSelect) (event : Selected) : DateSelect :=
  set_select_date (selected_date event) self.

(** *** DatePickerDialogScreen *)

Definition DatePickerDialogScreen_compose (self : DatePickerDialogScreen)
  : list Composed :=
  [DialogWidget (screen_dialog self)].

(** The right-hand side of both assignments to [self.dialog.offset]. *)
Definition centered (size : Z * Z) : Z * Z :=
  ((fst size - fst dialog_size) / 2, (snd size - snd dialog_size) / 2).

Definition DatePickerDialogScreen_on_resize (self : DatePickerDialogScreen) : M unit :=
  size <- get_app_size ;;
  update_dialog (screen_dialog self) (set_offset (centered size)).

Definition DatePickerDialogScreen_on_click
           (self : DatePickerDialogScreen) (event : MouseEvent) : M unit :=
  d <- get_dialog (screen_dialog self) ;;
  let offset := dialog_offset d in
  if negb ((fst offset <=? screen_x event)
           && (screen_x event <? fst offset + fst dialog_size))
     || negb ((snd offset <=? screen_y event)
              && (screen_y event <? snd offset + snd dialog_size))
  then pop_screen
  else ret tt.

(** [self.dialog.date_picker.date = date]: an [AttributeError] while
    [date_picker] is [None]; otherwise the picker stores the date and
    reacts on the DOM. *)
Definition set_picker_date (d : loc) (date : option DateTime) : M unit :=
  dlg <- get_dialog d ;;
  match dialog_date_picker dlg with
  | None => raise AttributeError
  | Some p =>
      update_dialog d
        (fun x => set_dom (watch_date date (dialog_dom x))
                    (set_date_picker (Some (mkDatePicker date (picker_target p))) x))
  end.

(** [for day in q: if day.day == d: day.focus(); break]. *)
Fixpoint focus_day (q : list DomNode) (d : Z) : M unit :=
  match q with
  | [] => ret tt
  | n :: rest =>
      if node_day n =? d then focus (node_id n) else focus_day rest d
  end.

Definition DatePickerDialogScreen_on_mount (self : DatePickerDialogScreen) : M unit :=
  size <- get_app_size ;;
  update_dialog (screen_dialog self) (set_offset (centered size)) ;;;
  match screen_date self with
  | Some date =>
      set_picker_date (screen_dialog self) (Some date) ;;;
      q <- query (screen_dialog self) DayLabel_day ;;
      focus_day q (day date)
  | None =>
      try_except
        (n <- query_one (screen_dialog self) DayLabel_today ;; focus (node_id n))
        NoMatches
        (q <- query (screen_dialog self) DayLabel_day ;;
         n <- first q ;;
         focus (node_id n))
  end.

End Methods.

(** ** Vocabulary of the statements *)

(** A dialog of [dialog_size] placed at [offset] lies inside a viewport of
    [size]. *)
Definition within_viewport (offset size : Z * Z) : Prop :=
  0 <= fst offset /\ 0 <= snd offset /\
  fst offset + fst dialog_size <= fst size /\
  snd offset + snd dialog_size <= snd size.

(** The point [(x, y)] lies in the half-open rectangle of the dialog. *)
Definition inside_dialog (offset : Z * Z) (x y : Z) : Prop :=
  (fst offset <= x < fst offset + 30) /\ (snd offset <= y < snd offset + 17).

(** [str.ljust]: pad with spaces on the right up to [n] characters. *)
Definition ljust (s : Py.str) (n : nat) : Py.str :=
  s ++ repeat Py.space (n - List.length s)%nat.

(** The calls [cs] contain a message posted by some widget. *)
Definition raises_event (cs : list Call) : Prop :=
  exists sender message, In (PostMessage sender message) cs.

(** ** Sample data *)

Definition sample_watch_date (date : option DateTime) (dom : list DomNode)
  : list DomNode := dom.

(** A [DayLabel] of the month view. *)
Definition day_label (id : WidgetId) (d : Z) (today : bool) : DomNode :=
  mkDomNode id ["DayLabel"%string]
            (if today then ["--day"; "--today"]%string else ["--day"%string])
            false d.

Definition sample_picker : DatePicker := mkDatePicker None None.

(** A composed dialog showing five day labels, none of them today's. *)
Definition sample_dialog : DatePickerDialog :=
  mkDatePickerDialog true (25, 3) (Some 7%nat) (Some sample_picker)
    [ mkDomNode 10%nat ["Vertical"%string] [] false 0;
      day_label 11%nat 30 false; day_label 12%nat 1 false;
      day_label 13%nat 2 false; day_label 14%nat 3 false;
      day_label 15%nat 1 false ].

(** A dialog that has not been composed yet. *)
Definition bare_dialog : DatePickerDialog :=
  mkDatePickerDialog true (0, 0) None None [].

Definition sample_world (size : Z * Z) (d : DatePickerDialog) : World :=
  mkWorld size (fun _ => d) 1%nat [].

Definition sample_screen : DatePickerDialogScreen :=
  DatePickerDialogScreen_init 0%nat.

(** The screen with the first of May stored as its date. *)
Definition sample_dated_screen : DatePickerDialogScreen :=
  mkDatePickerDialogScreen (Some (mkDateTime 2023 5 1)) 0%nat.

(** A formatter that knows the default format only. *)
Definition sample_format (d : DateTime) (format : Py.str) : Py.str :=
  Py.of_string "2023-05-01".

Definition sample_select : DateSelect :=
  mkDateSelect 7%nat (Some (mkDateTime 2023 5 1))
               (Py.of_string "YYYY-MM-DD") (Py.of_string "pick a date")
               None None None (Some 0%nat) 8.

(** A dialog in which the label of day 3 still holds the focus. *)
Definition focused_dialog : DatePickerDialog :=
  mkDatePickerDialog true (25, 3) (Some 7%nat) (Some sample_picker)
    [ mkDomNode 10%nat ["Vertical"%string] [] true 0;
      mkDomNode 14%nat ["DayLabel"%string] ["--day"%string] true 3 ].

(** A dialog without a target. *)
Definition untargeted_dialog : DatePickerDialog :=
  mkDatePickerDialog true (25, 3) None (Some sample_picker) [].

(** What a select of content width [width] shows for [text]: the text cut
    to the text space and padded to it, a space and the chevron. *)
Definition rendered_text (text : Py.str) (width : Z) : Py.str :=
  let text_space := Z.to_nat (Z.max 0 (width - 2)) in
  ljust (firstn text_space text) text_space ++ [Py.space; 9660%N].

(** The world after [DatePickerDialog()] has put a new dialog at
    [next_loc]. *)
Definition allocated (w : World) : World :=
  mkWorld (app_size w)
          (fun l => if Nat.eqb l (next_loc w)
                    then mkDatePickerDialog true (0, 0) None None []
                    else dialogs w l)
          (S (next_loc w)) (calls w).

(** The world after a select without a dialog has been mounted. *)
Definition mounted (widget : WidgetId) (w : World) : World :=
  logged [InstallScreen (DatePickerDialogScreen_init (next_loc w)) screen_name]
         (updated (next_loc w) (set_target (Some widget)) (allocated w)).

(** A select that has been constructed and not mounted. *)
Definition unmounted_select : DateSelect :=
  DateSelect_init 7%nat None (Py.of_string "YYYY-MM-DD")
                  (Py.of_string "pick a date") None None None.

(** ** Auxiliary lemmas *)

Lemma updated_same (d : loc) f w :
  dialogs (updated d f w) d = f (dialogs w d).
Proof. simpl. now rewrite Nat.eqb_refl. Qed.

Lemma updated_other (d l : loc) f w :
  l <> d -> dialogs (updated d f w) l = dialogs w l.
Proof.
  intros Hne. simpl. destruct (Nat.eqb_spec l d); [contradiction | reflexivity].
Qed.

Lemma logged_nil (w : World) : logged [] w = w.
Proof. destruct w. unfold logged. simpl. now rewrite app_nil_r. Qed.

Lemma focus_day_find (q : list DomNode) (d : Z) (w : World) :
  focus_day q d w =
  Ret tt (logged match find (fun n => node_day n =? d) q with
                 | Some n => [Focus (node_id n)]
                 | None => []
                 end w).
Proof.
  induction q as [|n q IH]; simpl.
  - now rewrite logged_nil.
  - destruct (node_day n =? d); [reflexivity | exact IH].
Qed.

Lemma centered_within_viewport (size : Z * Z) :
  within_viewport (centered size) size <-> 30 <= fst size /\ 17 <= snd size.
Proof.
  destruct size as [w h]. unfold within_viewport, centered, dialog_size. simpl.
  pose proof (Z.div_mod (w - 30) 2 ltac:(lia)) as Hw.
  pose proof (Z.mod_pos_bound (w - 30) 2 ltac:(lia)) as Hwm.
  pose proof (Z.div_mod (h - 17) 2 ltac:(lia)) as Hh.
  pose proof (Z.mod_pos_bound (h - 17) 2 ltac:(lia)) as Hhm.
  lia.
Qed.

Lemma find_first {A} (f : A -> bool) (pre post : list A) (x : A) :
  (forall y, In y pre -> f y = false) -> f x = true ->
  find f (pre ++ x :: post) = Some x.
Proof.
  intros Hpre Hx. induction pre as [|y pre IH]; simpl.
  - now rewrite Hx.
  - rewrite (Hpre y (or_introl eq_refl)). apply IH.
    intros z Hz. apply Hpre. now right.
Qed.

Lemma find_none_all {A} (f : A -> bool) (l : list A) :
  (forall y, In y l -> f y = false) -> find f l = None.
Proof.
  intros Hl. induction l as [|y l IH]; simpl; [reflexivity|].
  rewrite (Hl y (or_introl eq_refl)). apply IH.
  intros z Hz. apply Hl. now right.
Qed.

(** What [on_mount] of the screen does, path by path. *)

Lemma on_mount_without_date_eq
      (watch_date : option DateTime -> list DomNode -> list DomNode)
      (self : DatePickerDialogScreen) (w : World) :
  screen_date self = None ->
  let d := screen_dialog self in
  let w1 := updated d (set_offset (centered (app_size w))) w in
  DatePickerDialogScreen_on_mount watch_date self w =
  match filter (matches DayLabel_today) (dialog_dom (dialogs w1 d)) with
  | n :: _ => Ret tt (logged [Focus (node_id n)] w1)
  | [] =>
      match filter (matches DayLabel_day) (dialog_dom (dialogs w1 d)) with
      | n :: _ => Ret tt (logged [Focus (node_id n)] w1)
      | [] => Raise NoMatches w1
      end
  end.
Proof.
  intros Hdate d w1.
  unfold DatePickerDialogScreen_on_mount, bind, get_app_size, update_dialog.
  rewrite Hdate. fold d. fold w1.
  unfold try_except, query_one, bind, query.
  destruct (filter (matches DayLabel_today) (dialog_dom (dialogs w1 d)))
    as [|n q]; [| reflexivity].
  unfold first at 1. unfold raise.
  destruct (filter (matches DayLabel_day) (dialog_dom (dialogs w1 d)));
    reflexivity.
Qed.

Lemma on_mount_with_date_eq
      (watch_date : option DateTime -> list DomNode -> list DomNode)
      (self : DatePickerDialogScreen) (w : World) (date : DateTime) :
  screen_date self = Some date ->
  let d := screen_dialog self in
  let w1 := updated d (set_offset (centered (app_size w))) w in
  DatePickerDialogScreen_on_mount watch_date self w =
  match dialog_date_picker (dialogs w1 d) with
  | None => Raise AttributeError w1
  | Some p =>
      let w2 :=
        updated d
          (fun x => set_dom (watch_date (Some date) (dialog_dom x))
                      (set_date_picker
                         (Some (mkDatePicker (Some date) (picker_target p))) x))
          w1 in
      Ret tt (logged
                match find (fun n => node_day n =? day date)
                           (filter (matches DayLabel_day)
                                   (dialog_dom (dialogs w2 d))) with
                | Some n => [Focus (node_id n)]
                | None => []
                end w2)
  end.
Proof.
  intros Hdate d w1.
  unfold DatePickerDialogScreen_on_mount, bind, get_app_size, update_dialog.
  rewrite Hdate. fold d. fold w1.
  unfold set_picker_date, bind, get_dialog, raise.
  destruct (dialog_date_picker (dialogs w1 d)) as [p|]; [| reflexivity].
  unfold update_dialog, query. apply focus_day_find.
Qed.

(** ** Centering *)

(** C1, as the code has it: [on_resize] and [on_mount] both leave the dialog
    at the centering offset [((width - 30) // 2, (height - 17) // 2)],
    whatever else [on_mount] goes on to do, and [on_resize] never raises;
    that offset keeps the 30x17 dialog inside the viewport exactly when the
    application is at least 30 columns wide and 17 rows high. *)
Theorem screen_offset_centered
        (watch_date : option DateTime -> list DomNode -> list DomNode)
        (self : DatePickerDialogScreen) (w : World) :
  let width := fst (app_size w) in
  let height := snd (app_size w) in
  let offset := ((width - 30) / 2, (height - 17) / 2) in
  DatePickerDialogScreen_on_resize self w
  = Ret tt (updated (screen_dialog self) (set_offset offset) w)
  /\ dialog_offset
       (dialogs (world_of (DatePickerDialogScreen_on_resize self w))
                (screen_dialog self)) = offset
  /\ dialog_offset
       (dialogs (world_of (DatePickerDialogScreen_on_mount watch_date self w))
                (screen_dialog self)) = offset
  /\ (within_viewport offset (app_size w) <-> 30 <= width /\ 17 <= height).
Proof.
  intros width height offset.
  assert (Hc : centered (app_size w) = offset) by reflexivity.
  set (d := screen_dialog self).
  set (w1 := updated d (set_offset offset) w).
  assert (H1 : dialog_offset (dialogs w1 d) = offset).
  { unfold w1. rewrite updated_same. reflexivity. }
  split; [reflexivity|].
  split; [exact H1|].
  split.
  - destruct (screen_date self) as [date|] eqn:Hdate.
    + rewrite (on_mount_with_date_eq watch_date self w date Hdate).
      rewrite Hc. fold d. fold w1. cbv zeta.
      destruct (dialog_date_picker (dialogs w1 d)) as [p|]; [| exact H1].
      cbn [world_of logged dialogs]. rewrite updated_same. exact H1.
    + rewrite (on_mount_without_date_eq watch_date self w Hdate).
      rewrite Hc. fold d. fold w1. cbv zeta.
      destruct (filter (matches DayLabel_today) (dialog_dom (dialogs w1 d)));
        [| exact H1].
      destruct (filter (matches DayLabel_day) (dialog_dom (dialogs w1 d)));
        exact H1.
  - rewrite <- Hc. apply centered_within_viewport.
Qed.

(** C1, a terminal of 80x24: the dialog is placed at (25, 3), inside. *)
Lemma screen_offset_centered_witness :
  dialog_offset
    (dialogs (world_of (DatePickerDialogScreen_on_mount
                          sample_watch_date sample_screen
                          (sample_world (80, 24) sample_dialog))) 0%nat)
  = (25, 3)
  /\ within_viewport (25, 3) (80, 24).
Proof.
  pose proof (screen_offset_centered sample_watch_date sample_screen
                (sample_world (80, 24) sample_dialog)) as H.
  cbv zeta in H. destruct H as (_ & _ & Hm & Hv).
  split.
  - exact Hm.
  - apply Hv. cbn. lia.
Defined.

(** C1 as stated fails on a terminal of 20x10: the centering offset is
    (-5, -4), which is outside the viewport. *)
Lemma screen_offset_small_terminal :
  let w := sample_world (20, 10) sample_dialog in
  let w' := world_of (DatePickerDialogScreen_on_resize sample_screen w) in
  dialog_offset (dialogs w' 0%nat) = (-5, -4)
  /\ ~ within_viewport (dialog_offset (dialogs w' 0%nat)) (app_size w').
Proof.
  split.
  - reflexivity.
  - unfold within_viewport. cbn. lia.
Qed.

(** ** Clicks on the modal screen *)

(** C2: [on_click] never raises; it calls [pop_screen] exactly when the
    click lies outside the half-open rectangle of the dialog, and a click
    inside leaves the world, the logged calls included, as it was. *)
Theorem screen_click_pops_iff_outside
        (self : DatePickerDialogScreen) (event : MouseEvent) (w : World) :
  let offset := dialog_offset (dialogs w (screen_dialog self)) in
  let inside := inside_dialog offset (screen_x event) (screen_y event) in
  exists w',
    DatePickerDialogScreen_on_click self event w = Ret tt w'
    /\ (~ inside <-> calls w' = calls w ++ [PopScreen])
    /\ (inside -> w' = w)
    /\ dialogs w' = dialogs w.
Proof.
  intros offset inside.
  unfold DatePickerDialogScreen_on_click, bind, get_dialog.
  fold offset. change (fst dialog_size) with 30. change (snd dialog_size) with 17.
  destruct (negb ((fst offset <=? screen_x event)
                  && (screen_x event <? fst offset + 30))
            || negb ((snd offset <=? screen_y event)
                     && (screen_y event <? snd offset + 17))) eqn:Hb.
  - assert (Hout : ~ inside).
    { unfold inside, inside_dialog. intros [Hx Hy].
      apply orb_true_iff in Hb. destruct Hb as [Hb|Hb];
        apply negb_true_iff, andb_false_iff in Hb; destruct Hb as [Hb|Hb];
        first [apply Z.leb_gt in Hb | apply Z.ltb_ge in Hb]; lia. }
    exists (logged [PopScreen] w).
    split; [reflexivity|]. split; [|split].
    + split; [intros _; reflexivity | intros _; exact Hout].
    + intros Hin. contradiction.
    + reflexivity.
  - assert (Hin : inside).
    { unfold inside, inside_dialog.
      apply orb_false_iff in Hb. destruct Hb as [Hx Hy].
      apply negb_false_iff, andb_true_iff in Hx.
      apply negb_false_iff, andb_true_iff in Hy.
      destruct Hx as [Hx1 Hx2]. destruct Hy as [Hy1 Hy2].
      apply Z.leb_le in Hx1, Hy1. apply Z.ltb_lt in Hx2, Hy2. lia. }
    exists w.
    split; [reflexivity|]. split; [|split].
    + split; [intros Hout; contradiction|].
      intros Heq _. apply (f_equal (@List.length Call)) in Heq.
      rewrite length_app in Heq. simpl in Heq. lia.
    + reflexivity.
    + reflexivity.
Qed.

(** C2, a dialog at (25, 3): a click at (0, 0) pops the screen, a click at
    (30, 5) changes nothing. *)
Lemma screen_click_pops_iff_outside_witness :
  (exists w',
      DatePickerDialogScreen_on_click sample_screen (mkMouseEvent 0 0)
        (sample_world (80, 24) sample_dialog) = Ret tt w'
      /\ calls w' = [PopScreen])
  /\ DatePickerDialogScreen_on_click sample_screen (mkMouseEvent 30 5)
       (sample_world (80, 24) sample_dialog)
     = Ret tt (sample_world (80, 24) sample_dialog).
Proof.
  split.
  - destruct (screen_click_pops_iff_outside sample_screen (mkMouseEvent 0 0)
                (sample_world (80, 24) sample_dialog))
      as (w' & Hrun & Hiff & _).
    exists w'. split; [exact Hrun|].
    apply Hiff. unfold inside_dialog. cbn. lia.
  - destruct (screen_click_pops_iff_outside sample_screen (mkMouseEvent 30 5)
                (sample_world (80, 24) sample_dialog))
      as (w' & Hrun & _ & Hin & _).
    rewrite Hrun. f_equal. apply Hin.
    unfold inside_dialog. cbn. lia.
Defined.

(** ** Initial focus *)

(** C3: without a stored date, on a dialog that holds a [DayLabel.--day],
    as every composed dialog does, [on_mount] focuses the first
    [DayLabel.--today]; when there is none, the [NoMatches] of that lookup
    is caught and the first [DayLabel.--day] is focused instead; [on_mount]
    returns normally, so no [NoMatches] leaves it. *)
Theorem screen_mount_without_date
        (watch_date : option DateTime -> list DomNode -> list DomNode)
        (self : DatePickerDialogScreen) (w : World) :
  screen_date self = None ->
  filter (matches DayLabel_day)
         (dialog_dom (dialogs w (screen_dialog self))) <> [] ->
  let d := screen_dialog self in
  let w1 := updated d (set_offset (centered (app_size w))) w in
  let today := filter (matches DayLabel_today) (dialog_dom (dialogs w d)) in
  let days := filter (matches DayLabel_day) (dialog_dom (dialogs w d)) in
  let run := DatePickerDialogScreen_on_mount watch_date self w in
  (forall n q, today = n :: q -> run = Ret tt (logged [Focus (node_id n)] w1))
  /\ (forall n q, today = [] -> days = n :: q ->
      run = Ret tt (logged [Focus (node_id n)] w1))
  /\ raised run <> Some NoMatches
  /\ raised run = None.
Proof.
  intros Hdate Hdays d w1 today days run.
  pose proof (on_mount_without_date_eq watch_date self w Hdate) as Heq.
  cbv zeta in Heq. fold d in Heq. fold w1 in Heq. fold run in Heq.
  assert (Hdom : dialog_dom (dialogs w1 d) = dialog_dom (dialogs w d)).
  { unfold w1. rewrite updated_same. reflexivity. }
  rewrite Hdom in Heq. fold today in Heq. fold days in Heq.
  fold d in Hdays. fold days in Hdays.
  assert (Hret : raised run = None).
  { rewrite Heq.
    destruct today as [|n q]; [| reflexivity].
    destruct days as [|n q]; [| reflexivity].
    contradiction Hdays; reflexivity. }
  split; [|split; [|split]].
  - intros n q Ht. rewrite Heq, Ht. reflexivity.
  - intros n q Ht Hd. rewrite Heq, Ht, Hd. reflexivity.
  - rewrite Hret. discriminate.
  - exact Hret.
Qed.

(** C3, a dialog whose five day labels are not today's: the first of them,
    widget 11, receives the focus. *)
Lemma screen_mount_without_date_witness :
  screen_date sample_screen = None
  /\ filter (matches DayLabel_day)
            (dialog_dom (dialogs (sample_world (80, 24) sample_dialog)
                                 (screen_dialog sample_screen))) <> []
  /\ DatePickerDialogScreen_on_mount sample_watch_date sample_screen
       (sample_world (80, 24) sample_dialog)
     = Ret tt (logged [Focus 11%nat]
                 (updated 0%nat (set_offset (25, 3))
                    (sample_world (80, 24) sample_dialog))).
Proof.
  assert (Hdays : filter (matches DayLabel_day)
                         (dialog_dom (dialogs (sample_world (80, 24) sample_dialog)
                                              (screen_dialog sample_screen)))
                  <> []) by (cbn; discriminate).
  split; [reflexivity|]. split; [exact Hdays|].
  destruct (screen_mount_without_date sample_watch_date sample_screen
              (sample_world (80, 24) sample_dialog) eq_refl Hdays)
    as (_ & Hday & _ & _).
  exact (Hday (day_label 11%nat 30 false) _ eq_refl eq_refl).
Defined.

(** C4: with a stored date and a composed picker, [on_mount] returns, the
    picker holds that date, and the only call made is the focus of the
    first [DayLabel.--day], in query order, whose day is the date's day; no
    call is made when no label has that day. *)
Theorem screen_mount_with_date
        (watch_date : option DateTime -> list DomNode -> list DomNode)
        (self : DatePickerDialogScreen) (w : World)
        (date : DateTime) (p : DatePicker) :
  screen_date self = Some date ->
  dialog_date_picker (dialogs w (screen_dialog self)) = Some p ->
  let d := screen_dialog self in
  exists w',
    DatePickerDialogScreen_on_mount watch_date self w = Ret tt w'
    /\ dialog_date_picker (dialogs w' d)
       = Some (mkDatePicker (Some date) (picker_target p))
    /\ dialog_dom (dialogs w' d)
       = watch_date (Some date) (dialog_dom (dialogs w d))
    /\ let labels := filter (matches DayLabel_day) (dialog_dom (dialogs w' d)) in
       calls w' = calls w ++ match find (fun n => node_day n =? day date) labels with
                             | Some n => [Focus (node_id n)]
                             | None => []
                             end
       /\ (forall pre n post,
             labels = pre ++ n :: post ->
             (forall m, In m pre -> node_day m <> day date) ->
             node_day n = day date ->
             calls w' = calls w ++ [Focus (node_id n)])
       /\ ((forall m, In m labels -> node_day m <> day date) ->
           calls w' = calls w).
Proof.
  intros Hdate Hp d.
  pose proof (on_mount_with_date_eq watch_date self w date Hdate) as Heq.
  cbv zeta in Heq. fold d in Heq.
  set (w1 := updated d (set_offset (centered (app_size w))) w) in *.
  assert (Hp1 : dialog_date_picker (dialogs w1 d) = Some p).
  { unfold w1. rewrite updated_same. exact Hp. }
  rewrite Hp1 in Heq.
  set (w2 := updated d _ w1) in *.
  set (labels := filter (matches DayLabel_day) (dialog_dom (dialogs w2 d))) in *.
  eexists. split; [exact Heq|].
  cbn [logged dialogs calls].
  assert (Hd2 : dialogs w2 d
                = set_dom (watch_date (Some date) (dialog_dom (dialogs w1 d)))
                    (set_date_picker
                       (Some (mkDatePicker (Some date) (picker_target p)))
                       (dialogs w1 d))).
  { unfold w2. rewrite updated_same. reflexivity. }
  assert (Hd1 : dialog_dom (dialogs w1 d) = dialog_dom (dialogs w d)).
  { unfold w1. rewrite updated_same. reflexivity. }
  split; [rewrite Hd2; reflexivity|].
  split; [rewrite Hd2, Hd1; reflexivity|].
  fold labels. split; [reflexivity|]. split.
  - intros pre n post Hl Hpre Hn. rewrite Hl.
    rewrite find_first; [reflexivity| |].
    + intros m Hm. apply Z.eqb_neq. apply Hpre. exact Hm.
    + apply Z.eqb_eq. exact Hn.
  - intros Hnone. rewrite find_none_all.
    + apply app_nil_r.
    + intros m Hm. apply Z.eqb_neq. apply Hnone. exact Hm.
Qed.

(** C4, the first of May on the sample dialog: labels 12 and 15 both show
    day 1, and label 12, the first in query order, receives the focus. *)
Lemma screen_mount_with_date_witness :
  screen_date sample_dated_screen = Some (mkDateTime 2023 5 1)
  /\ dialog_date_picker
       (dialogs (sample_world (80, 24) sample_dialog)
                (screen_dialog sample_dated_screen)) = Some sample_picker
  /\ exists w',
      DatePickerDialogScreen_on_mount sample_watch_date sample_dated_screen
        (sample_world (80, 24) sample_dialog) = Ret tt w'
      /\ calls w' = [Focus 12%nat].
Proof.
  split; [reflexivity|]. split; [reflexivity|].
  destruct (screen_mount_with_date sample_watch_date sample_dated_screen
              (sample_world (80, 24) sample_dialog)
              (mkDateTime 2023 5 1) sample_picker eq_refl eq_refl)
    as (w' & Hrun & _ & Hdom & _ & Hfirst & _).
  exists w'. split; [exact Hrun|].
  apply (Hfirst [day_label 11%nat 30 false] (day_label 12%nat 1 false)
                [day_label 13%nat 2 false; day_label 14%nat 3 false;
                 day_label 15%nat 1 false]).
  - rewrite Hdom. reflexivity.
  - intros m [Hm|[]]. subst m. cbn. lia.
  - reflexivity.
Defined.

(** ** Rendering the select *)

Lemma length_ljust (s : Py.str) (n : nat) :
  (List.length s <= n)%nat -> List.length (ljust s n) = n.
Proof.
  intros Hle. unfold ljust. rewrite length_app, repeat_length. lia.
Qed.

(** C5: [render] returns the formatted date, or the placeholder without a
    date, cut to the text space (the content width minus two, or zero when
    that is negative), padded with spaces on the right to the text space,
    then a space and the chevron; from a content width of 2 on, the text
    space is the width minus two and the result is exactly as long as the
    content width. *)
Theorem select_render_spec
        (pendulum_format : DateTime -> Py.str -> Py.str) (self : DateSelect) :
  let width := select_content_width self in
  let text :=
    match select_date self with
    | None => select_placeholder self
    | Some d => pendulum_format d (select_format self)
    end in
  let text_space := Z.to_nat (Z.max 0 (width - 2)) in
  let rendered := ljust (firstn text_space text) text_space ++ [Py.space; 9660%N] in
  DateSelect_render pendulum_format self = Some rendered
  /\ (2 <= width ->
      Z.of_nat text_space = width - 2 /\ Py.len rendered = width).
Proof.
  intros width text text_space rendered.
  assert (Hlen : (List.length (firstn text_space text) <= text_space)%nat).
  { rewrite length_firstn. lia. }
  split.
  - unfold DateSelect_render. fold width. fold text.
    set (ts := if width - 2 <? 0 then 0 else width - 2).
    assert (Hts : ts = Z.max 0 (width - 2)).
    { unfold ts. destruct (Z.ltb_spec (width - 2) 0); lia. }
    assert (Hnat : Z.to_nat ts = text_space) by (unfold text_space; now rewrite Hts).
    assert (Hcut : (if Py.len text >? ts then Py.slice_to text ts else text)
                   = firstn text_space text).
    { unfold Py.len, Py.slice_to.
      destruct (Z.gtb_spec (Z.of_nat (List.length text)) ts) as [Hgt|Hle].
      - destruct (Z.ltb_spec ts 0); [lia|].
        rewrite Z.min_l by (unfold Py.len; lia). now rewrite Hnat.
      - symmetry. apply firstn_all2. lia. }
    rewrite Hcut. unfold Py.format_width.
    destruct (Z.ltb_spec ts 0); [lia|].
    destruct (Z.eqb_spec ts 0) as [H0|Hpos].
    + assert (Hz : text_space = 0%nat) by lia.
      unfold rendered, ljust. rewrite Hz. reflexivity.
    + rewrite Hnat. reflexivity.
  - intros Hw. split; [unfold text_space; lia|].
    unfold rendered, Py.len. rewrite length_app, length_ljust by exact Hlen.
    simpl. unfold text_space. lia.
Qed.

(** C5, a content width of 8 and the first of May 2023: the text is cut
    to its first six characters. *)
Lemma select_render_spec_witness :
  2 <= select_content_width sample_select
  /\ DateSelect_render sample_format sample_select
     = Some (Py.of_string "2023-0 " ++ [9660%N])
  /\ Py.len (Py.of_string "2023-0 " ++ [9660%N]) = 8.
Proof.
  destruct (select_render_spec sample_format sample_select) as (Hrun & Hlen).
  assert (Hw : 2 <= select_content_width sample_select) by (cbn; lia).
  split; [exact Hw|]. split.
  - exact Hrun.
  - exact (proj2 (Hlen Hw)).
Defined.

(** Narrow widgets: with no room for text, only the space and the chevron
    are left, and they are left even when the widget is narrower than
    that. *)
Example render_width_2 :
  DateSelect_render sample_format
    (mkDateSelect 7%nat None [] (Py.of_string "pick a date")
                  None None None None 2)
  = Some [Py.space; 9660%N].
Proof. reflexivity. Qed.

Example render_width_0 :
  DateSelect_render sample_format
    (mkDateSelect 7%nat None [] (Py.of_string "pick a date")
                  None None None None 0)
  = Some [Py.space; 9660%N].
Proof. reflexivity. Qed.

Example render_placeholder_padded :
  DateSelect_render sample_format
    (mkDateSelect 7%nat None [] (Py.of_string "date")
                  None None None None 8)
  = Some (Py.of_string "date   " ++ [9660%N]).
Proof. reflexivity. Qed.

(** ** Closing the dialog *)

(** C6: on [DatePicker.Selected] the dialog never raises; it ends hidden,
    with [pop_screen] called and then, only when the target is set,
    [focus] called on the target; nothing else is called and no other
    attribute of the dialog changes. *)
Theorem dialog_selected_hides_pops_focuses
        (self : loc) (event : Selected) (w : World) :
  let target := dialog_target (dialogs w self) in
  exists w',
    DatePickerDialog_on_date_picker_selected self event w = Ret tt w'
    /\ dialogs w' self = set_display false (dialogs w self)
    /\ dialog_display (dialogs w' self) = false
    /\ calls w' = calls w ++ PopScreen :: match target with
                                         | Some t => [Focus t]
                                         | None => []
                                         end
    /\ (target = None -> calls w' = calls w ++ [PopScreen]).
Proof.
  intros target.
  unfold DatePickerDialog_on_date_picker_selected, bind, update_dialog,
    pop_screen, call, get_dialog.
  cbn [logged dialogs]. rewrite updated_same.
  change (dialog_target (set_display false (dialogs w self))) with target.
  destruct target as [t|] eqn:Ht.
  - eexists. split; [reflexivity|]. cbn [logged dialogs calls focus call].
    rewrite updated_same. repeat split.
    + unfold focus, call. cbn. now rewrite <- app_assoc.
    + discriminate.
  - eexists. split; [reflexivity|]. cbn [logged dialogs calls].
    rewrite updated_same. repeat split.
Qed.

(** C10: [on_descendant_blur] never raises; with no descendant matching
    [*:focus-within] the dialog ends hidden and is otherwise as before;
    with a descendant still in focus the world is left as it was. *)
Theorem dialog_blur_hides_without_focus (self : loc) (w : World) :
  let focused := filter (matches any_focus_within)
                        (dialog_dom (dialogs w self)) in
  (focused = [] ->
   DatePickerDialog_on_descendant_blur self w
   = Ret tt (updated self (set_display false) w)
   /\ dialogs (updated self (set_display false) w) self
      = mkDatePickerDialog false
          (dialog_offset (dialogs w self)) (dialog_target (dialogs w self))
          (dialog_date_picker (dialogs w self)) (dialog_dom (dialogs w self))
   /\ forall other, other <> self ->
                    dialogs (updated self (set_display false) w) other
                    = dialogs w other)
  /\ (focused <> [] -> DatePickerDialog_on_descendant_blur self w = Ret tt w).
Proof.
  intros focused.
  unfold DatePickerDialog_on_descendant_blur, bind, query, update_dialog.
  fold focused. split.
  - intros Hnil. rewrite Hnil. split; [reflexivity|]. split.
    + rewrite updated_same. reflexivity.
    + intros other Hother. apply updated_other. exact Hother.
  - intros Hsome. destruct focused as [|n q]; [contradiction Hsome; reflexivity|].
    reflexivity.
Qed.

(** C6, a dialog whose target is widget 7, and one without a target. *)
Lemma dialog_selected_hides_pops_focuses_witness :
  (exists w',
      DatePickerDialog_on_date_picker_selected 0%nat (mkSelected None)
        (sample_world (80, 24) sample_dialog) = Ret tt w'
      /\ dialog_display (dialogs w' 0%nat) = false
      /\ calls w' = [PopScreen; Focus 7%nat])
  /\ (exists w',
        DatePickerDialog_on_date_picker_selected 0%nat (mkSelected None)
          (sample_world (80, 24) untargeted_dialog) = Ret tt w'
        /\ calls w' = [PopScreen]).
Proof.
  split.
  - destruct (dialog_selected_hides_pops_focuses 0%nat (mkSelected None)
                (sample_world (80, 24) sample_dialog))
      as (w' & Hrun & _ & Hdisplay & Hcalls & _).
    exists w'. split; [exact Hrun|]. split; [exact Hdisplay | exact Hcalls].
  - destruct (dialog_selected_hides_pops_focuses 0%nat (mkSelected None)
                (sample_world (80, 24) untargeted_dialog))
      as (w' & Hrun & _ & _ & _ & Hnone).
    exists w'. split; [exact Hrun|]. apply Hnone. reflexivity.
Defined.

(** C10, once with the focus gone and once with it on the label of day 3. *)
Lemma dialog_blur_hides_without_focus_witness :
  DatePickerDialog_on_descendant_blur 0%nat
    (sample_world (80, 24) sample_dialog)
  = Ret tt (updated 0%nat (set_display false)
              (sample_world (80, 24) sample_dialog))
  /\ DatePickerDialog_on_descendant_blur 0%nat
       (sample_world (80, 24) focused_dialog)
     = Ret tt (sample_world (80, 24) focused_dialog).
Proof.
  split.
  - apply (proj1 (dialog_blur_hides_without_focus 0%nat
                    (sample_world (80, 24) sample_dialog))).
    reflexivity.
  - apply (proj2 (dialog_blur_hides_without_focus 0%nat
                    (sample_world (80, 24) focused_dialog))).
    discriminate.
Defined.

(** ** Opening the picker *)

(** C7: a mounted select, whose dialog is [d], opens the picker on the
    enter key and on any click: the dialog ends displayed and the one call
    made is [push_screen("date_picker_dialog_screen")]; on any other key
    the world is left as it was. *)
Theorem select_opens_on_enter_or_click
        (self : DateSelect) (d : loc) (w : World) :
  select_dialog self = Some d ->
  let opened :=
    logged [PushScreen "date_picker_dialog_screen"]
           (updated d (set_display true) w) in
  (forall event, key event = "enter"%string ->
                 DateSelect_on_key self event w = Ret tt opened)
  /\ (forall event, DateSelect_on_click self event w = Ret tt opened)
  /\ (forall event, key event <> "enter"%string ->
                    DateSelect_on_key self event w = Ret tt w)
  /\ dialog_display (dialogs opened d) = true
  /\ calls opened = calls w ++ [PushScreen "date_picker_dialog_screen"].
Proof.
  intros Hd opened.
  assert (Hshow : DateSelect_show_date_picker self w = Ret tt opened).
  { unfold DateSelect_show_date_picker. rewrite Hd. reflexivity. }
  split; [|split; [|split; [|split]]].
  - intros event Hkey. unfold DateSelect_on_key. rewrite Hkey. exact Hshow.
  - intros event. exact Hshow.
  - intros event Hkey. unfold DateSelect_on_key.
    destruct (String.eqb_spec (key event) "enter"); [contradiction | reflexivity].
  - unfold opened. cbn [logged dialogs]. rewrite updated_same. reflexivity.
  - reflexivity.
Qed.

(** C7, the sample select: enter opens the picker, escape does not. *)
Lemma select_opens_on_enter_or_click_witness :
  select_dialog sample_select = Some 0%nat
  /\ DateSelect_on_key sample_select (mkKey "enter")
       (sample_world (80, 24) bare_dialog)
     = Ret tt (logged [PushScreen "date_picker_dialog_screen"]
                 (updated 0%nat (set_display true)
                    (sample_world (80, 24) bare_dialog)))
  /\ DateSelect_on_key sample_select (mkKey "escape")
       (sample_world (80, 24) bare_dialog)
     = Ret tt (sample_world (80, 24) bare_dialog).
Proof.
  destruct (select_opens_on_enter_or_click sample_select 0%nat
              (sample_world (80, 24) bare_dialog) eq_refl)
    as (Henter & _ & Hother & _).
  split; [reflexivity|]. split.
  - apply Henter. reflexivity.
  - apply Hother. discriminate.
Defined.

(** C8 as stated fails: a click on the select makes one call,
    [push_screen], and posts no message. *)
Lemma select_click_raises_no_event :
  calls (world_of (DateSelect_on_click sample_select (mkMouseEvent 1 1)
                     (sample_world (80, 24) bare_dialog)))
  = [PushScreen "date_picker_dialog_screen"]
  /\ ~ raises_event
        (calls (world_of (DateSelect_on_click sample_select (mkMouseEvent 1 1)
                            (sample_world (80, 24) bare_dialog)))).
Proof.
  split; [reflexivity|].
  intros (sender & message & [H|[]]). discriminate H.
Qed.

(** C8, as the code has it: opening the picker is a direct call, not a
    raised event.  The select, whose dialog is [d], displays that dialog
    and pushes the modal screen ["date_picker_dialog_screen"] itself,
    posting no message; and the dialog composes the calendar widget, a
    [DatePicker] with the target of the dialog, inside a [Vertical]. *)
Theorem select_opens_by_direct_calls
        (new_DatePicker : DatePicker)
        (self : DateSelect) (d : loc) (w : World) :
  select_dialog self = Some d ->
  let picker := mkDatePicker (picker_date new_DatePicker)
                             (dialog_target (dialogs w d)) in
  exists w1 w2,
    DateSelect_show_date_picker self w = Ret tt w1
    /\ dialog_display (dialogs w1 d) = true
    /\ calls w1 = calls w ++ [PushScreen "date_picker_dialog_screen"]
    /\ ~ raises_event [PushScreen "date_picker_dialog_screen"]
    /\ DatePickerDialog_compose new_DatePicker d w1 = Ret [Vertical [picker]] w2
    /\ dialog_date_picker (dialogs w2 d) = Some picker
    /\ calls w2 = calls w1.
Proof.
  intros Hd picker.
  set (w1 := logged [PushScreen screen_name] (updated d (set_display true) w)).
  set (w2 := updated d (set_date_picker (Some picker)) w1).
  assert (H1 : dialogs w1 d = set_display true (dialogs w d)).
  { unfold w1. cbn [logged dialogs]. apply updated_same. }
  exists w1, w2.
  split.
  { unfold DateSelect_show_date_picker. rewrite Hd. reflexivity. }
  split; [rewrite H1; reflexivity|].
  split; [reflexivity|].
  split; [intros (s0 & m0 & [H|[]]); discriminate H|].
  split.
  { unfold DatePickerDialog_compose, bind, get_dialog. rewrite H1. reflexivity. }
  split; [|reflexivity].
  unfold w2. rewrite updated_same. reflexivity.
Qed.

(** C8, the sample select over the sample dialog, whose target is
    widget 7. *)
Lemma select_opens_by_direct_calls_witness :
  select_dialog sample_select = Some 0%nat
  /\ exists w1 w2,
      DateSelect_show_date_picker sample_select
        (sample_world (80, 24) sample_dialog) = Ret tt w1
      /\ calls w1 = [PushScreen "date_picker_dialog_screen"]
      /\ DatePickerDialog_compose sample_picker 0%nat w1
         = Ret [Vertical [mkDatePicker None (Some 7%nat)]] w2.
Proof.
  split; [reflexivity|].
  destruct (select_opens_by_direct_calls sample_picker sample_select 0%nat
              (sample_world (80, 24) sample_dialog) eq_refl)
    as (w1 & w2 & Hshow & _ & Hcalls & _ & Hcompose & _).
  exists w1, w2. split; [exact Hshow|]. split; [exact Hcalls | exact Hcompose].
Defined.

(** ** The value of the select *)

(** C9: [value] is the reactive [date]: [None] on a select constructed
    without a date, the constructor's date when one is given, and the
    event's date once [on_date_picker_selected] has handled a selection. *)
Theorem select_value_is_current_date :
  (forall self, DateSelect_value self = select_date self)
  /\ (forall widget format placeholder name id classes,
        DateSelect_value
          (DateSelect_init widget None format placeholder name id classes)
        = None)
  /\ (forall widget date format placeholder name id classes,
        DateSelect_value
          (DateSelect_init widget (Some date) format placeholder name id classes)
        = Some date)
  /\ (forall self event,
        DateSelect_value (DateSelect_on_date_picker_selected self event)
        = selected_date event).
Proof.
  repeat split.
Qed.

(** * Further properties of the code *)

(** ** More auxiliary lemmas *)

Lemma render_eq (pendulum_format : DateTime -> Py.str -> Py.str)
      (self : DateSelect) :
  DateSelect_render pendulum_format self
  = Some (rendered_text
            match select_date self with
            | None => select_placeholder self
            | Some d => pendulum_format d (select_format self)
            end
            (select_content_width self)).
Proof.
  unfold DateSelect_render, rendered_text.
  set (width := select_content_width self).
  set (text := match select_date self with
               | None => select_placeholder self
               | Some d => pendulum_format d (select_format self)
               end).
  set (n := Z.to_nat (Z.max 0 (width - 2))).
  set (room := if width - 2 <? 0 then 0 else width - 2).
  assert (Hroom : 0 <= room /\ Z.to_nat room = n).
  { unfold room, n. destruct (Z.ltb_spec (width - 2) 0); lia. }
  destruct Hroom as [Hpos Hn].
  assert (Hcut : (if Py.len text >? room then Py.slice_to text room else text)
                 = firstn n text).
  { unfold Py.slice_to, Py.len.
    destruct (Z.gtb_spec (Z.of_nat (List.length text)) room) as [Hgt|Hle].
    - destruct (Z.ltb_spec room 0); [lia|].
      rewrite Z.min_l by lia. now rewrite Hn.
    - symmetry. apply firstn_all2. lia. }
  rewrite Hcut. unfold Py.format_width, ljust.
  destruct (Z.ltb_spec room 0); [lia|].
  destruct (Z.eqb_spec room 0) as [H0|H0].
  - assert (Hz : n = 0%nat) by lia. rewrite Hz. reflexivity.
  - rewrite Hn. reflexivity.
Qed.

Lemma length_rendered_text (text : Py.str) (width : Z) :
  Py.len (rendered_text text width) = Z.max width 2.
Proof.
  unfold rendered_text, Py.len.
  rewrite length_app, length_ljust by (rewrite length_firstn; lia).
  simpl. lia.
Qed.

Lemma dialogs_allocated_new (w : World) :
  dialogs (allocated w) (next_loc w)
  = mkDatePickerDialog true (0, 0) None None [].
Proof. simpl. now rewrite Nat.eqb_refl. Qed.

Lemma dialogs_allocated_old (w : World) (l : loc) :
  l <> next_loc w -> dialogs (allocated w) l = dialogs w l.
Proof.
  intros Hne. simpl. destruct (Nat.eqb_spec l (next_loc w)); [contradiction|].
  reflexivity.
Qed.

Lemma dialogs_mounted_new (widget : WidgetId) (w : World) :
  dialogs (mounted widget w) (next_loc w)
  = mkDatePickerDialog true (0, 0) (Some widget) None [].
Proof.
  unfold mounted. cbn [logged dialogs].
  rewrite updated_same, dialogs_allocated_new. reflexivity.
Qed.

Lemma dialogs_mounted_old (widget : WidgetId) (w : World) (l : loc) :
  l <> next_loc w -> dialogs (mounted widget w) l = dialogs w l.
Proof.
  intros Hne. unfold mounted. cbn [logged dialogs].
  rewrite updated_other by exact Hne. apply dialogs_allocated_old. exact Hne.
Qed.

Lemma installed_after_install (s : DatePickerDialogScreen) (name : string)
      (w : World) :
  installed name (logged [InstallScreen s name] w) = true.
Proof.
  unfold installed. cbn [logged calls]. rewrite existsb_app.
  cbn. rewrite String.eqb_refl. apply orb_true_r.
Qed.

Lemma select_mount_new_eq (self : DateSelect) (w : World) :
  select_dialog self = None ->
  installed screen_name w = false ->
  DateSelect_on_mount self w
  = Ret (set_select_dialog (Some (next_loc w)) self)
        (mounted (select_widget self) w).
Proof.
  intros Hnone Hfree. unfold DateSelect_on_mount. rewrite Hnone.
  unfold bind, DatePickerDialog_init, update_dialog, ret, install_screen.
  unfold installed in *. cbn [calls updated]. rewrite Hfree. reflexivity.
Qed.

Lemma select_mount_new_taken (self : DateSelect) (w : World) :
  select_dialog self = None ->
  installed screen_name w = true ->
  DateSelect_on_mount self w
  = Raise ScreenError
          (updated (next_loc w) (set_target (Some (select_widget self)))
                   (allocated w)).
Proof.
  intros Hnone Htaken. unfold DateSelect_on_mount. rewrite Hnone.
  unfold bind, DatePickerDialog_init, update_dialog, ret, install_screen.
  unfold installed in *. cbn [calls updated]. rewrite Htaken. reflexivity.
Qed.

Lemma select_mount_again_eq (self : DateSelect) (d : loc) (w : World) :
  select_dialog self = Some d ->
  installed screen_name w = false ->
  DateSelect_on_mount self w
  = Ret self (logged [InstallScreen (DatePickerDialogScreen_init d) screen_name] w).
Proof.
  intros Hd Hfree. unfold DateSelect_on_mount. rewrite Hd.
  unfold bind, ret, install_screen. rewrite Hfree.
  destruct self. simpl in Hd. subst. reflexivity.
Qed.

Lemma select_mount_again_taken (self : DateSelect) (d : loc) (w : World) :
  select_dialog self = Some d ->
  installed screen_name w = true ->
  DateSelect_on_mount self w = Raise ScreenError w.
Proof.
  intros Hd Htaken. unfold DateSelect_on_mount. rewrite Hd.
  unfold bind, ret, install_screen. rewrite Htaken. reflexivity.
Qed.

Lemma select_init_dialog widget date format placeholder name id classes :
  select_dialog
    (DateSelect_init widget date format placeholder name id classes) = None.
Proof. unfold DateSelect_init. destruct date; reflexivity. Qed.

Lemma select_init_widget widget date format placeholder name id classes :
  select_widget
    (DateSelect_init widget date format placeholder name id classes) = widget.
Proof. unfold DateSelect_init. destruct date; reflexivity. Qed.

(** ** The rendered select at every width *)

(** X1: [render] never fails, whatever the content width, and its result is
    as long as the larger of the content width and 2: a select narrower
    than two cells still renders the space and the chevron, and nothing
    else. *)
Theorem select_render_length
        (pendulum_format : DateTime -> Py.str -> Py.str) (self : DateSelect) :
  exists r,
    DateSelect_render pendulum_format self = Some r
    /\ Py.len r = Z.max (select_content_width self) 2
    /\ (select_content_width self <= 2 -> r = [Py.space; 9660%N]).
Proof.
  eexists. split; [apply render_eq|]. split.
  - apply length_rendered_text.
  - intros Hw. unfold rendered_text.
    replace (Z.to_nat (Z.max 0 (select_content_width self - 2))) with 0%nat
      by lia.
    reflexivity.
Qed.

(** X1, a select one cell wide. *)
Lemma select_render_length_witness :
  DateSelect_render sample_format
    (mkDateSelect 7%nat (Some (mkDateTime 2023 5 1)) [] [] None None None None 1)
  = Some [Py.space; 9660%N].
Proof.
  destruct (select_render_length sample_format
              (mkDateSelect 7%nat (Some (mkDateTime 2023 5 1)) [] []
                            None None None None 1))
    as (r & Hrun & _ & Hnarrow).
  rewrite Hrun. f_equal. apply Hnarrow. cbn. lia.
Defined.

(** X2: a text that fits into the content width minus two is shown in
    full, followed by the spaces that fill the text space; a longer text
    is cut to exactly the text space and gets no padding. *)
Theorem select_render_fit_or_cut
        (pendulum_format : DateTime -> Py.str -> Py.str) (self : DateSelect) :
  let width := select_content_width self in
  let text :=
    match select_date self with
    | None => select_placeholder self
    | Some d => pendulum_format d (select_format self)
    end in
  (Py.len text <= width - 2 ->
   DateSelect_render pendulum_format self
   = Some (text ++ repeat Py.space (Z.to_nat (width - 2 - Py.len text))
                ++ [Py.space; 9660%N]))
  /\ (2 <= width -> width - 2 < Py.len text ->
      DateSelect_render pendulum_format self
      = Some (firstn (Z.to_nat (width - 2)) text ++ [Py.space; 9660%N])).
Proof.
  intros width text. unfold Py.len. split.
  - intros Hfit. rewrite render_eq. fold width. fold text.
    unfold rendered_text, ljust.
    rewrite firstn_all2 by lia.
    replace (Z.to_nat (Z.max 0 (width - 2)) - List.length text)%nat
      with (Z.to_nat (width - 2 - Z.of_nat (List.length text))) by lia.
    now rewrite <- app_assoc.
  - intros Hw Hlong. rewrite render_eq. fold width. fold text.
    unfold rendered_text, ljust.
    replace (Z.to_nat (Z.max 0 (width - 2))) with (Z.to_nat (width - 2)) by lia.
    rewrite length_firstn.
    replace (Z.to_nat (width - 2)
             - Nat.min (Z.to_nat (width - 2)) (List.length text))%nat
      with 0%nat by lia.
    simpl. now rewrite app_nil_r.
Qed.

(** X2, the placeholder in 20 cells and the date in 8. *)
Lemma select_render_fit_or_cut_witness :
  DateSelect_render sample_format
    (mkDateSelect 7%nat None [] (Py.of_string "pick a date")
                  None None None None 20)
  = Some (Py.of_string "pick a date" ++ repeat Py.space 7
            ++ [Py.space; 9660%N])
  /\ DateSelect_render sample_format sample_select
     = Some (Py.of_string "2023-0" ++ [Py.space; 9660%N]).
Proof.
  split.
  - apply (proj1 (select_render_fit_or_cut sample_format
                    (mkDateSelect 7%nat None [] (Py.of_string "pick a date")
                                  None None None None 20))).
    cbn. lia.
  - apply (proj2 (select_render_fit_or_cut sample_format sample_select)).
    + cbn. lia.
    + cbn. lia.
Defined.

(** X3: handling a selection changes the date of the select and nothing
    else, and the select then renders the selected date in its format, or
    the placeholder again when the event carries no date. *)
Theorem select_render_after_selection
        (pendulum_format : DateTime -> Py.str -> Py.str)
        (self : DateSelect) (event : Selected) :
  let self' := DateSelect_on_date_picker_selected self event in
  self' = mkDateSelect (select_widget self) (selected_date event)
                       (select_format self) (select_placeholder self)
                       (select_name self) (select_id self)
                       (select_classes self) (select_dialog self)
                       (select_content_width self)
  /\ (forall d, selected_date event = Some d ->
                DateSelect_render pendulum_format self'
                = Some (rendered_text (pendulum_format d (select_format self))
                                      (select_content_width self)))
  /\ (selected_date event = None ->
      DateSelect_render pendulum_format self'
      = Some (rendered_text (select_placeholder self)
                            (select_content_width self))).
Proof.
  intros self'. split; [reflexivity|]. split.
  - intros d Hd. rewrite render_eq. unfold self'. cbn. rewrite Hd. reflexivity.
  - intros Hd. rewrite render_eq. unfold self'. cbn. rewrite Hd. reflexivity.
Qed.

(** X3, a select showing its placeholder receives the first of May. *)
Lemma select_render_after_selection_witness :
  DateSelect_render sample_format
    (DateSelect_on_date_picker_selected
       (mkDateSelect 7%nat None [] (Py.of_string "pick a date")
                     None None None None 14)
       (mkSelected (Some (mkDateTime 2023 5 1))))
  = Some (Py.of_string "2023-05-01   " ++ [9660%N]).
Proof.
  exact (proj1 (proj2 (select_render_after_selection sample_format
                         (mkDateSelect 7%nat None [] (Py.of_string "pick a date")
                                       None None None None 14)
                         (mkSelected (Some (mkDateTime 2023 5 1)))))
               (mkDateTime 2023 5 1) eq_refl).
Defined.

(** ** A select that is not mounted *)

(** X4: while the select has no dialog, as after construction and before
    [on_mount], a click and the enter key raise [AttributeError] and leave
    the world as it was, with no screen pushed; any other key still
    returns normally. *)
Theorem select_unmounted_cannot_open (self : DateSelect) (w : World) :
  select_dialog self = None ->
  (forall event, DateSelect_on_click self event w = Raise AttributeError w)
  /\ (forall event, key event = "enter"%string ->
                    DateSelect_on_key self event w = Raise AttributeError w)
  /\ (forall event, key event <> "enter"%string ->
                    DateSelect_on_key self event w = Ret tt w).
Proof.
  intros Hnone.
  assert (Hshow : DateSelect_show_date_picker self w = Raise AttributeError w).
  { unfold DateSelect_show_date_picker. rewrite Hnone. reflexivity. }
  split; [|split].
  - intros event. exact Hshow.
  - intros event Hkey. unfold DateSelect_on_key. rewrite Hkey. exact Hshow.
  - intros event Hkey. unfold DateSelect_on_key.
    destruct (String.eqb_spec (key event) "enter"); [contradiction | reflexivity].
Qed.

(** X4, a select straight from its constructor. *)
Lemma select_unmounted_cannot_open_witness :
  select_dialog unmounted_select = None
  /\ DateSelect_on_click unmounted_select (mkMouseEvent 1 1)
       (sample_world (80, 24) bare_dialog)
     = Raise AttributeError (sample_world (80, 24) bare_dialog).
Proof.
  split; [reflexivity|].
  apply (proj1 (select_unmounted_cannot_open unmounted_select
                  (sample_world (80, 24) bare_dialog) eq_refl)).
Defined.

(** ** Mounting selects *)

(** X5: once a select has been mounted, mounting it again raises
    [ScreenError], because the name is taken by the screen of the first
    mount; the second [on_mount] creates no second dialog, installs
    nothing and leaves the world as the first mount left it. *)
Theorem select_second_mount_raises (self : DateSelect) (w : World) :
  select_dialog self = None ->
  installed screen_name w = false ->
  let d := next_loc w in
  exists once w1,
    DateSelect_on_mount self w = Ret once w1
    /\ select_dialog once = Some d
    /\ calls w1 = calls w ++ [InstallScreen (DatePickerDialogScreen_init d)
                                            "date_picker_dialog_screen"]
    /\ DateSelect_on_mount once w1 = Raise ScreenError w1.
Proof.
  intros Hnone Hfree d.
  exists (set_select_dialog (Some d) self), (mounted (select_widget self) w).
  split; [apply select_mount_new_eq; assumption|].
  split; [reflexivity|]. split; [reflexivity|].
  apply (select_mount_again_taken _ d); [reflexivity|].
  apply installed_after_install.
Qed.

(** X5, the select straight from its constructor, mounted twice. *)
Lemma select_second_mount_raises_witness :
  select_dialog unmounted_select = None
  /\ installed screen_name (sample_world (80, 24) bare_dialog) = false
  /\ exists once w1,
      DateSelect_on_mount unmounted_select (sample_world (80, 24) bare_dialog)
      = Ret once w1
      /\ DateSelect_on_mount once w1 = Raise ScreenError w1.
Proof.
  split; [reflexivity|]. split; [reflexivity|].
  destruct (select_second_mount_raises unmounted_select
              (sample_world (80, 24) bare_dialog) eq_refl eq_refl)
    as (once & w1 & Hfirst & _ & _ & Hsecond).
  exists once, w1. split; [exact Hfirst | exact Hsecond].
Defined.

(** X6: of two selects mounted one after the other, the second raises
    [ScreenError]: both use the one name ["date_picker_dialog_screen"].
    By then the second select has created its own dialog and made itself
    its target, but the only screen installed is the one that holds the
    dialog of the first select, which is untouched. *)
Theorem select_second_select_raises (a b : DateSelect) (w : World) :
  select_dialog a = None ->
  select_dialog b = None ->
  installed screen_name w = false ->
  let d := next_loc w in
  exists a' w1,
    DateSelect_on_mount a w = Ret a' w1
    /\ let run := DateSelect_on_mount b w1 in
       raised run = Some ScreenError
       /\ calls (world_of run)
          = calls w ++ [InstallScreen (DatePickerDialogScreen_init d)
                                      "date_picker_dialog_screen"]
       /\ dialog_target (dialogs (world_of run) d) = Some (select_widget a)
       /\ dialog_target (dialogs (world_of run) (S d)) = Some (select_widget b)
       /\ next_loc (world_of run) = S (S d).
Proof.
  intros Ha Hb Hfree d.
  set (w1 := mounted (select_widget a) w).
  assert (Hnext : next_loc w1 = S d) by reflexivity.
  exists (set_select_dialog (Some d) a), w1.
  split; [apply select_mount_new_eq; assumption|].
  cbv zeta.
  rewrite (select_mount_new_taken b w1 Hb (installed_after_install _ _ _)).
  cbn [raised world_of]. rewrite Hnext.
  split; [reflexivity|]. split; [reflexivity|]. split; [|split].
  - rewrite updated_other by lia.
    rewrite dialogs_allocated_old by (rewrite Hnext; lia).
    unfold w1, d. rewrite dialogs_mounted_new. reflexivity.
  - rewrite updated_same. rewrite <- Hnext at 1.
    rewrite dialogs_allocated_new. reflexivity.
  - reflexivity.
Qed.

(** X6, two selects from the constructor in a world with one dialog. *)
Lemma select_second_select_raises_witness :
  select_dialog unmounted_select = None
  /\ installed screen_name (sample_world (80, 24) sample_dialog) = false
  /\ exists a' w1,
      DateSelect_on_mount unmounted_select (sample_world (80, 24) sample_dialog)
      = Ret a' w1
      /\ raised (DateSelect_on_mount
                   (DateSelect_init 8%nat None [] [] None None None) w1)
         = Some ScreenError.
Proof.
  split; [reflexivity|]. split; [reflexivity|].
  destruct (select_second_select_raises unmounted_select
              (DateSelect_init 8%nat None [] [] None None None)
              (sample_world (80, 24) sample_dialog) eq_refl eq_refl eq_refl)
    as (a' & w1 & Hfirst & Hraised & _).
  exists a', w1. split; [exact Hfirst | exact Hraised].
Defined.

(** X7: [DateSelect.on_mount] returns exactly when no screen is installed
    under the name yet, and raises [ScreenError] without installing
    anything otherwise.  The screen it installs stores no date, whatever
    the date of the select: when that screen is mounted it takes the path
    without a date, so it neither assigns the picker's date nor raises
    [AttributeError], and leaves the picker and the DOM of the dialog as
    they are. *)
Theorem select_mount_installs_dateless_screen
        (watch_date : option DateTime -> list DomNode -> list DomNode)
        (self : DateSelect) (w : World) :
  (installed screen_name w = false ->
   exists self' w1 screen,
     DateSelect_on_mount self w = Ret self' w1
     /\ calls w1 = calls w ++ [InstallScreen screen "date_picker_dialog_screen"]
     /\ screen_date screen = None
     /\ select_dialog self' = Some (screen_dialog screen)
     /\ select_date self' = select_date self
     /\ forall w2,
         let run := DatePickerDialogScreen_on_mount watch_date screen w2 in
         raised run <> Some AttributeError
         /\ dialog_date_picker (dialogs (world_of run) (screen_dialog screen))
            = dialog_date_picker (dialogs w2 (screen_dialog screen))
         /\ dialog_dom (dialogs (world_of run) (screen_dialog screen))
            = dialog_dom (dialogs w2 (screen_dialog screen)))
  /\ (installed screen_name w = true ->
      raised (DateSelect_on_mount self w) = Some ScreenError
      /\ calls (world_of (DateSelect_on_mount self w)) = calls w).
Proof.
  assert (Hscreen : forall d w2,
             let run := DatePickerDialogScreen_on_mount
                          watch_date (DatePickerDialogScreen_init d) w2 in
             raised run <> Some AttributeError
             /\ dialog_date_picker (dialogs (world_of run) d)
                = dialog_date_picker (dialogs w2 d)
             /\ dialog_dom (dialogs (world_of run) d)
                = dialog_dom (dialogs w2 d)).
  { intros d w2 run. unfold run.
    rewrite (on_mount_without_date_eq watch_date
               (DatePickerDialogScreen_init d) w2 eq_refl).
    cbv zeta. cbn [screen_dialog DatePickerDialogScreen_init].
    set (w3 := updated d (set_offset (centered (app_size w2))) w2).
    assert (H3 : dialogs w3 d = set_offset (centered (app_size w2)) (dialogs w2 d)).
    { unfold w3. apply updated_same. }
    destruct (filter (matches DayLabel_today) (dialog_dom (dialogs w3 d)));
      [destruct (filter (matches DayLabel_day) (dialog_dom (dialogs w3 d)))|];
      cbn [raised world_of logged dialogs]; rewrite H3;
      (split; [discriminate | split; reflexivity]). }
  split.
  - intros Hfree. destruct (select_dialog self) as [d|] eqn:Hd.
    + exists self,
             (logged [InstallScreen (DatePickerDialogScreen_init d) screen_name] w),
             (DatePickerDialogScreen_init d).
      split; [apply select_mount_again_eq; assumption|].
      split; [reflexivity|]. split; [reflexivity|]. split; [exact Hd|].
      split; [reflexivity|]. apply Hscreen.
    + exists (set_select_dialog (Some (next_loc w)) self),
             (mounted (select_widget self) w),
             (DatePickerDialogScreen_init (next_loc w)).
      split; [apply select_mount_new_eq; assumption|].
      split; [reflexivity|]. split; [reflexivity|]. split; [reflexivity|].
      split; [reflexivity|]. apply Hscreen.
  - intros Htaken. destruct (select_dialog self) as [d|] eqn:Hd.
    + rewrite (select_mount_again_taken self d w Hd Htaken).
      split; reflexivity.
    + rewrite (select_mount_new_taken self w Hd Htaken).
      split; reflexivity.
Qed.

(** X7, a select that has a date: the installed screen has none, and its
    mounting over a bare dialog does not raise [AttributeError]. *)
Lemma select_mount_installs_dateless_screen_witness :
  installed screen_name (sample_world (80, 24) bare_dialog) = false
  /\ exists self' w1 screen,
      DateSelect_on_mount sample_select (sample_world (80, 24) bare_dialog)
      = Ret self' w1
      /\ screen_date screen = None
      /\ select_date self' = Some (mkDateTime 2023 5 1)
      /\ raised (DatePickerDialogScreen_on_mount sample_watch_date screen w1)
         <> Some AttributeError.
Proof.
  split; [reflexivity|].
  destruct (proj1 (select_mount_installs_dateless_screen sample_watch_date
                     sample_select (sample_world (80, 24) bare_dialog))
                  eq_refl)
    as (self' & w1 & screen & Hrun & _ & Hdate & _ & Hkeep & Hmount).
  exists self', w1, screen. split; [exact Hrun|]. split; [exact Hdate|].
  split; [exact Hkeep|]. exact (proj1 (Hmount w1)).
Defined.

(** ** What mounting the screen can do *)

(** X8: [DatePickerDialogScreen.on_mount], raising or not, calls the
    framework at most once, and then to focus a [DayLabel] of the dialog
    that carries the class [--day] or [--today]; it pops and pushes no
    screen, and leaves the display flag and the target of its dialog and
    every other dialog as they were. *)
Theorem screen_mount_calls_at_most_one_focus
        (watch_date : option DateTime -> list DomNode -> list DomNode)
        (self : DatePickerDialogScreen) (w : World) :
  let d := screen_dialog self in
  let w' := world_of (DatePickerDialogScreen_on_mount watch_date self w) in
  dialog_display (dialogs w' d) = dialog_display (dialogs w d)
  /\ dialog_target (dialogs w' d) = dialog_target (dialogs w d)
  /\ (forall l, l <> d -> dialogs w' l = dialogs w l)
  /\ (calls w' = calls w
      \/ exists n,
          In n (dialog_dom (dialogs w' d))
          /\ (matches DayLabel_day n = true \/ matches DayLabel_today n = true)
          /\ calls w' = calls w ++ [Focus (node_id n)]).
Proof.
  intros d w'. unfold w'. clear w'.
  set (w1 := updated d (set_offset (centered (app_size w))) w).
  assert (H1 : dialogs w1 d = set_offset (centered (app_size w)) (dialogs w d)).
  { unfold w1. apply updated_same. }
  assert (H1o : forall l, l <> d -> dialogs w1 l = dialogs w l).
  { intros l Hl. unfold w1. apply updated_other. exact Hl. }
  destruct (screen_date self) as [date|] eqn:Hdate.
  - rewrite (on_mount_with_date_eq watch_date self w date Hdate).
    cbv zeta. fold d. fold w1.
    destruct (dialog_date_picker (dialogs w1 d)) as [p|] eqn:Hp.
    + set (w2 := updated d _ w1).
      assert (H2 : dialogs w2 d
                   = set_dom (watch_date (Some date) (dialog_dom (dialogs w1 d)))
                       (set_date_picker
                          (Some (mkDatePicker (Some date) (picker_target p)))
                          (dialogs w1 d))).
      { unfold w2. apply updated_same. }
      cbn [world_of logged dialogs calls].
      split; [rewrite H2, H1; reflexivity|].
      split; [rewrite H2, H1; reflexivity|].
      split.
      { intros l Hl. unfold w2. rewrite updated_other by exact Hl.
        apply H1o. exact Hl. }
      destruct (find (fun n => node_day n =? day date)
                     (filter (matches DayLabel_day) (dialog_dom (dialogs w2 d))))
        as [n|] eqn:Hfind.
      * right. exists n. apply find_some in Hfind. destruct Hfind as [Hin _].
        apply filter_In in Hin. destruct Hin as [Hin Hm].
        split; [exact Hin|]. split; [left; exact Hm | reflexivity].
      * left. apply app_nil_r.
    + cbn [world_of]. split; [rewrite H1; reflexivity|].
      split; [rewrite H1; reflexivity|]. split; [exact H1o|]. left. reflexivity.
  - rewrite (on_mount_without_date_eq watch_date self w Hdate).
    cbv zeta. fold d. fold w1.
    destruct (filter (matches DayLabel_today) (dialog_dom (dialogs w1 d)))
      as [|n q] eqn:Htoday.
    + destruct (filter (matches DayLabel_day) (dialog_dom (dialogs w1 d)))
        as [|n q] eqn:Hday.
      * cbn [world_of]. split; [rewrite H1; reflexivity|].
        split; [rewrite H1; reflexivity|]. split; [exact H1o|].
        left. reflexivity.
      * cbn [world_of logged dialogs calls].
        split; [rewrite H1; reflexivity|].
        split; [rewrite H1; reflexivity|]. split; [exact H1o|].
        right. exists n.
        assert (Hin : In n (filter (matches DayLabel_day)
                                   (dialog_dom (dialogs w1 d)))).
        { rewrite Hday. now left. }
        apply filter_In in Hin. destruct Hin as [Hin Hm].
        split; [exact Hin|]. split; [left; exact Hm | reflexivity].
    + cbn [world_of logged dialogs calls].
      split; [rewrite H1; reflexivity|].
      split; [rewrite H1; reflexivity|]. split; [exact H1o|].
      right. exists n.
      assert (Hin : In n (filter (matches DayLabel_today)
                                 (dialog_dom (dialogs w1 d)))).
      { rewrite Htoday. now left. }
      apply filter_In in Hin. destruct Hin as [Hin Hm].
      split; [exact Hin|]. split; [right; exact Hm | reflexivity].
Qed.

(** X8, on the sample dialog: the other dialogs are untouched. *)
Lemma screen_mount_calls_at_most_one_focus_witness :
  dialogs (world_of (DatePickerDialogScreen_on_mount
                       sample_watch_date sample_dated_screen
                       (sample_world (80, 24) sample_dialog))) 5%nat
  = sample_dialog.
Proof.
  destruct (screen_mount_calls_at_most_one_focus
              sample_watch_date sample_dated_screen
              (sample_world (80, 24) sample_dialog))
    as (_ & _ & Hother & _).
  apply (Hother 5%nat). cbn. lia.
Defined.

(** X9: with a stored date and a dialog that has not been composed, so
    that its [date_picker] is still [None], [on_mount] raises
    [AttributeError]: the dialog has been centered by then, and nothing
    has been focused. *)
Theorem screen_mount_uncomposed_raises
        (watch_date : option DateTime -> list DomNode -> list DomNode)
        (self : DatePickerDialogScreen) (w : World) (date : DateTime) :
  screen_date self = Some date ->
  dialog_date_picker (dialogs w (screen_dialog self)) = None ->
  DatePickerDialogScreen_on_mount watch_date self w
  = Raise AttributeError
          (updated (screen_dialog self)
                   (set_offset (centered (app_size w))) w).
Proof.
  intros Hdate Hnone.
  rewrite (on_mount_with_date_eq watch_date self w date Hdate). cbv zeta.
  rewrite updated_same.
  change (dialog_date_picker
            (set_offset (centered (app_size w)) (dialogs w (screen_dialog self))))
    with (dialog_date_picker (dialogs w (screen_dialog self))).
  rewrite Hnone. reflexivity.
Qed.

(** X9, the dated screen over a bare dialog on a terminal of 80x24. *)
Lemma screen_mount_uncomposed_raises_witness :
  screen_date sample_dated_screen = Some (mkDateTime 2023 5 1)
  /\ dialog_date_picker
       (dialogs (sample_world (80, 24) bare_dialog)
                (screen_dialog sample_dated_screen)) = None
  /\ raised (DatePickerDialogScreen_on_mount
               sample_watch_date sample_dated_screen
               (sample_world (80, 24) bare_dialog)) = Some AttributeError
  /\ calls (world_of (DatePickerDialogScreen_on_mount
                        sample_watch_date sample_dated_screen
                        (sample_world (80, 24) bare_dialog))) = [].
Proof.
  split; [reflexivity|]. split; [reflexivity|].
  rewrite (screen_mount_uncomposed_raises sample_watch_date sample_dated_screen
             (sample_world (80, 24) bare_dialog) (mkDateTime 2023 5 1)
             eq_refl eq_refl).
  split; reflexivity.
Defined.

(** X10: composing a dialog gives it a picker that has the target the
    dialog has at that moment, changes nothing else of the dialog and
    calls nothing; after that, mounting a screen with a stored date over
    this dialog returns normally and the picker holds the date. *)
Theorem dialog_compose_enables_dated_mount
        (new_DatePicker : DatePicker)
        (watch_date : option DateTime -> list DomNode -> list DomNode)
        (d : loc) (date : DateTime) (w : World) :
  let picker := mkDatePicker (picker_date new_DatePicker)
                             (dialog_target (dialogs w d)) in
  exists w1 w2,
    DatePickerDialog_compose new_DatePicker d w = Ret [Vertical [picker]] w1
    /\ dialogs w1 d = set_date_picker (Some picker) (dialogs w d)
    /\ (forall l, l <> d -> dialogs w1 l = dialogs w l)
    /\ calls w1 = calls w
    /\ DatePickerDialogScreen_on_mount
         watch_date (mkDatePickerDialogScreen (Some date) d) w1 = Ret tt w2
    /\ dialog_date_picker (dialogs w2 d)
       = Some (mkDatePicker (Some date) (dialog_target (dialogs w d))).
Proof.
  intros picker.
  set (w1 := updated d (set_date_picker (Some picker)) w).
  assert (H1 : dialogs w1 d = set_date_picker (Some picker) (dialogs w d)).
  { unfold w1. apply updated_same. }
  pose proof (on_mount_with_date_eq watch_date
                (mkDatePickerDialogScreen (Some date) d) w1 date eq_refl) as Hm.
  cbv zeta in Hm. cbn [screen_dialog] in Hm.
  rewrite updated_same, H1 in Hm.
  cbn [set_offset set_date_picker dialog_date_picker dialog_display
       dialog_offset dialog_target dialog_dom] in Hm.
  exists w1. eexists.
  split; [reflexivity|]. split; [exact H1|]. split.
  { intros l Hl. unfold w1. apply updated_other. exact Hl. }
  split; [reflexivity|]. split; [exact Hm|].
  cbn [logged dialogs]. rewrite updated_same. reflexivity.
Qed.

(** X10, the bare dialog composed and then mounted with the first of May. *)
Lemma dialog_compose_enables_dated_mount_witness :
  exists w1 w2,
    DatePickerDialog_compose sample_picker 0%nat
      (sample_world (80, 24) bare_dialog)
    = Ret [Vertical [mkDatePicker None None]] w1
    /\ DatePickerDialogScreen_on_mount sample_watch_date sample_dated_screen w1
       = Ret tt w2
    /\ dialog_date_picker (dialogs w2 0%nat)
       = Some (mkDatePicker (Some (mkDateTime 2023 5 1)) None).
Proof.
  destruct (dialog_compose_enables_dated_mount sample_picker sample_watch_date
              0%nat (mkDateTime 2023 5 1) (sample_world (80, 24) bare_dialog))
    as (w1 & w2 & Hcompose & _ & _ & _ & Hmount & Hpicker).
  exists w1, w2. split; [exact Hcompose|]. split; [exact Hmount | exact Hpicker].
Defined.

(** ** Clicks after a resize *)

Lemma screen_click_cases
      (self : DatePickerDialogScreen) (event : MouseEvent) (w : World) :
  let offset := dialog_offset (dialogs w (screen_dialog self)) in
  let inside := inside_dialog offset (screen_x event) (screen_y event) in
  exists w',
    DatePickerDialogScreen_on_click self event w = Ret tt w'
    /\ (inside -> w' = w)
    /\ (~ inside -> w' = logged [PopScreen] w).
Proof.
  intros offset inside.
  unfold DatePickerDialogScreen_on_click, bind, get_dialog.
  fold offset. change (fst dialog_size) with 30. change (snd dialog_size) with 17.
  destruct (Z.leb_spec (fst offset) (screen_x event));
    destruct (Z.ltb_spec (screen_x event) (fst offset + 30));
    destruct (Z.leb_spec (snd offset) (screen_y event));
    destruct (Z.ltb_spec (screen_y event) (snd offset + 17));
    cbn [negb andb orb]; eexists; (split; [reflexivity|]);
    unfold inside, inside_dialog; split; intros Hyp;
    first [reflexivity | lia | (exfalso; apply Hyp; lia)].
Qed.

Lemma resize_then_click_eq (self : DatePickerDialogScreen)
      (event : MouseEvent) (w : World) :
  let offset := centered (app_size w) in
  let w1 := updated (screen_dialog self) (set_offset offset) w in
  (DatePickerDialogScreen_on_resize self ;;;
   DatePickerDialogScreen_on_click self event) w
  = if negb ((fst offset <=? screen_x event)
             && (screen_x event <? fst offset + 30))
       || negb ((snd offset <=? screen_y event)
                && (screen_y event <? snd offset + 17))
    then Ret tt (logged [PopScreen] w1)
    else Ret tt w1.
Proof.
  intros offset w1.
  unfold DatePickerDialogScreen_on_resize, DatePickerDialogScreen_on_click,
    get_app_size, update_dialog, get_dialog, bind.
  cbv beta iota. fold offset. fold w1.
  assert (H1 : dialog_offset (dialogs w1 (screen_dialog self)) = offset).
  { unfold w1. rewrite updated_same. reflexivity. }
  rewrite H1. change (fst dialog_size) with 30. change (snd dialog_size) with 17.
  destruct (negb _ || negb _); reflexivity.
Qed.

(** X11: whatever the size of the application, a click on the centre of
    the terminal right after a resize falls inside the centered dialog
    and does not pop the screen. *)
Theorem screen_centre_click_stays (self : DatePickerDialogScreen) (w : World) :
  let centre := mkMouseEvent (fst (app_size w) / 2) (snd (app_size w) / 2) in
  (DatePickerDialogScreen_on_resize self ;;;
   DatePickerDialogScreen_on_click self centre) w
  = Ret tt (updated (screen_dialog self)
                    (set_offset (centered (app_size w))) w).
Proof.
  intros centre. rewrite resize_then_click_eq. cbv zeta.
  destruct (app_size w) as [width height].
  unfold centre, centered, dialog_size. cbn [fst snd screen_x screen_y].
  assert (Hx : (width - 30) / 2 <= width / 2 < (width - 30) / 2 + 30)
    by (Z.to_euclidean_division_equations; lia).
  assert (Hy : (height - 17) / 2 <= height / 2 < (height - 17) / 2 + 17)
    by (Z.to_euclidean_division_equations; lia).
  destruct Hx as [Hx1 Hx2]. destruct Hy as [Hy1 Hy2].
  apply Z.leb_le in Hx1, Hy1. apply Z.ltb_lt in Hx2, Hy2.
  rewrite Hx1, Hx2, Hy1, Hy2. reflexivity.
Qed.

(** X12: on a terminal no larger than the dialog, at most 30 columns and
    17 rows, the centered dialog covers the whole viewport: after a resize
    no click inside the viewport pops the screen. *)
Theorem screen_covers_small_terminal
        (self : DatePickerDialogScreen) (event : MouseEvent) (w : World) :
  fst (app_size w) <= 30 ->
  snd (app_size w) <= 17 ->
  0 <= screen_x event < fst (app_size w) ->
  0 <= screen_y event < snd (app_size w) ->
  (DatePickerDialogScreen_on_resize self ;;;
   DatePickerDialogScreen_on_click self event) w
  = Ret tt (updated (screen_dialog self)
                    (set_offset (centered (app_size w))) w).
Proof.
  intros Hw Hh Hx Hy. rewrite resize_then_click_eq. cbv zeta.
  destruct (app_size w) as [width height].
  unfold centered, dialog_size. cbn [fst snd] in *.
  assert (Hox : (width - 30) / 2 <= screen_x event
                /\ screen_x event < (width - 30) / 2 + 30)
    by (Z.to_euclidean_division_equations; lia).
  assert (Hoy : (height - 17) / 2 <= screen_y event
                /\ screen_y event < (height - 17) / 2 + 17)
    by (Z.to_euclidean_division_equations; lia).
  destruct Hox as [Hx1 Hx2]. destruct Hoy as [Hy1 Hy2].
  apply Z.leb_le in Hx1, Hy1. apply Z.ltb_lt in Hx2, Hy2.
  rewrite Hx1, Hx2, Hy1, Hy2. reflexivity.
Qed.

(** X12, a terminal of 20x10 and a click on its last cell. *)
Lemma screen_covers_small_terminal_witness :
  (DatePickerDialogScreen_on_resize sample_screen ;;;
   DatePickerDialogScreen_on_click sample_screen (mkMouseEvent 19 9))
    (sample_world (20, 10) sample_dialog)
  = Ret tt (updated 0%nat (set_offset (-5, -4))
                    (sample_world (20, 10) sample_dialog)).
Proof.
  apply (screen_covers_small_terminal sample_screen (mkMouseEvent 19 9)
           (sample_world (20, 10) sample_dialog)); cbn; lia.
Defined.

(** X13: a resize only depends on the size of the application: it
    overwrites whatever offset the dialog had, changes nothing else and
    calls nothing, so that a second resize on the same size changes
    nothing at all. *)
Theorem screen_resize_idempotent (self : DatePickerDialogScreen) (w : World) :
  let d := screen_dialog self in
  let w1 := world_of (DatePickerDialogScreen_on_resize self w) in
  let w2 := world_of (DatePickerDialogScreen_on_resize self w1) in
  dialogs w1 d = mkDatePickerDialog
                   (dialog_display (dialogs w d)) (centered (app_size w))
                   (dialog_target (dialogs w d))
                   (dialog_date_picker (dialogs w d))
                   (dialog_dom (dialogs w d))
  /\ (forall l, l <> d -> dialogs w1 l = dialogs w l)
  /\ calls w1 = calls w
  /\ (forall l, dialogs w2 l = dialogs w1 l)
  /\ calls w2 = calls w1
  /\ app_size w2 = app_size w1.
Proof.
  intros d w1 w2.
  assert (E1 : w1 = updated d (set_offset (centered (app_size w))) w)
    by reflexivity.
  assert (E2 : w2 = updated d (set_offset (centered (app_size w))) w1)
    by reflexivity.
  assert (H1 : dialogs w1 d = set_offset (centered (app_size w)) (dialogs w d)).
  { rewrite E1. apply updated_same. }
  split; [exact H1|]. split.
  { intros l Hl. rewrite E1. apply updated_other. exact Hl. }
  split; [reflexivity|]. split.
  { intros l. destruct (Nat.eq_dec l d) as [->|Hl].
    - rewrite E2, updated_same, H1. reflexivity.
    - rewrite E2. apply updated_other. exact Hl. }
  split; reflexivity.
Qed.

(** X13, the sample dialog moved away and the terminal resized twice. *)
Lemma screen_resize_idempotent_witness :
  dialog_offset
    (dialogs (world_of (DatePickerDialogScreen_on_resize sample_screen
                          (world_of (DatePickerDialogScreen_on_resize
                                       sample_screen
                                       (sample_world (100, 40) sample_dialog)))))
             0%nat)
  = (35, 11).
Proof.
  destruct (screen_resize_idempotent sample_screen
              (sample_world (100, 40) sample_dialog))
    as (Hfirst & _ & _ & Hsecond & _).
  exact (eq_trans (f_equal dialog_offset (Hsecond 0%nat))
                  (f_equal dialog_offset Hfirst)).
Defined.

(** ** A whole cycle *)



(** ** Clicks on a hidden dialog *)

(** X15: the hit test of the screen looks at the offset of the dialog
    only, not at its display flag: after [on_descendant_blur], whether it
    has hidden the dialog or not, a click inside the rectangle of the
    dialog still does not pop the screen, and a click outside pops it; the
    blur itself calls nothing. *)
Theorem screen_click_after_blur
        (self : DatePickerDialogScreen) (event : MouseEvent) (w : World) :
  let d := screen_dialog self in
  let inside :=
    inside_dialog (dialog_offset (dialogs w d)) (screen_x event) (screen_y event) in
  let run := (DatePickerDialog_on_descendant_blur d ;;;
              DatePickerDialogScreen_on_click self event) w in
  raised run = None
  /\ (inside -> calls (world_of run) = calls w)
  /\ (~ inside -> calls (world_of run) = calls w ++ [PopScreen]).
Proof.
  intros d inside run.
  assert (Hblur : exists w1,
             DatePickerDialog_on_descendant_blur d w = Ret tt w1
             /\ dialog_offset (dialogs w1 d) = dialog_offset (dialogs w d)
             /\ calls w1 = calls w).
  { unfold DatePickerDialog_on_descendant_blur, bind, query, update_dialog.
    destruct (Py.len _ =? 0).
    - eexists. split; [reflexivity|]. split; [|reflexivity].
      rewrite updated_same. reflexivity.
    - exists w. repeat split. }
  destruct Hblur as (w1 & Hrun1 & Hoff & Hcalls).
  destruct (screen_click_cases self event w1)
    as (w2 & Hrun2 & Hin & Hout).
  fold d in Hin, Hout. rewrite Hoff in Hin, Hout. fold inside in Hin, Hout.
  assert (Hrun : run = Ret tt w2).
  { unfold run, bind. rewrite Hrun1. exact Hrun2. }
  rewrite Hrun. cbn [raised world_of].
  split; [reflexivity|]. split.
  - intros Hi. rewrite (Hin Hi). exact Hcalls.
  - intros Ho. rewrite (Hout Ho). cbn [logged calls]. rewrite Hcalls.
    reflexivity.
Qed.

(** X15, the sample dialog with the focus gone: a click at (30, 5) stays,
    a click at (0, 0) pops. *)
Lemma screen_click_after_blur_witness :
  calls (world_of ((DatePickerDialog_on_descendant_blur 0%nat ;;;
                    DatePickerDialogScreen_on_click sample_screen
                      (mkMouseEvent 30 5))
                     (sample_world (80, 24) sample_dialog))) = []
  /\ calls (world_of ((DatePickerDialog_on_descendant_blur 0%nat ;;;
                       DatePickerDialogScreen_on_click sample_screen
                         (mkMouseEvent 0 0))
                        (sample_world (80, 24) sample_dialog))) = [PopScreen].
Proof.
  split.
  - apply (proj1 (proj2 (screen_click_after_blur sample_screen
                           (mkMouseEvent 30 5)
                           (sample_world (80, 24) sample_dialog)))).
    unfold inside_dialog. cbn. lia.
  - apply (proj2 (proj2 (screen_click_after_blur sample_screen
                           (mkMouseEvent 0 0)
                           (sample_world (80, 24) sample_dialog)))).
    unfold inside_dialog. cbn. lia.
Defined.
